(** * ZSTD and QATZSTD compression codecs

    A shallow embedding of [src/Compression/CompressionCodecZSTD.cpp]:
    the software codec [CompressionCodecZSTD], the hardware-assisted
    [CompressionCodecQATZSTD], and the two creator closures handed to the
    codec factory.  libzstd and the QAT sequence-producer plugin are external
    libraries; they enter the development as an interface ([Env]) and a
    contract ([EnvOk]). *)

From Stdlib Require Import ZArith List String Bool Lia DecimalString.
From Stdlib.Strings Require Import Byte.
Import ListNotations.
Local Open Scope Z_scope.

(** ** Machine integers *)

Module Int.

(** [UInt8], [UInt32], [UInt64]/[size_t] and [int] conversions, with the
    wrap-around of the narrowing conversions written out. *)
Definition to_UInt8 (z : Z) : Z := z mod 2 ^ 8.
Definition to_UInt32 (z : Z) : Z := z mod 2 ^ 32.
Definition to_UInt64 (z : Z) : Z := z mod 2 ^ 64.
Definition to_int (z : Z) : Z := (z + 2 ^ 31) mod 2 ^ 32 - 2 ^ 31.

(** [toString] / [std::to_string] on integers. *)
Definition toString (z : Z) : string := NilZero.string_of_int (Z.to_int z).

End Int.
Import Int.

Definition bytes := list byte.

Definition size (b : bytes) : Z := Z.of_nat (List.length b).

(** The caller keeps the first [n] bytes of the destination buffer. *)
Definition take (n : Z) (b : bytes) : bytes := firstn (Z.to_nat n) b.

(** ** Exceptions *)

(** The [ErrorCodes] this file refers to.  The creators throw
    [ILLEGAL_SYNTAX_FOR_CODEC_TYPE] for a wrong number of arguments (the
    specification's MalformedConfiguration) and [ILLEGAL_CODEC_PARAMETER]
    for every other rejected argument (its ParameterOutOfRange); the
    compress and decompress paths throw [CANNOT_COMPRESS] and
    [CANNOT_DECOMPRESS] (CompressionFailure, DecompressionFailure).
    [BAD_GET] is the code raised from inside [Field::safeGet] when the
    literal holds another alternative. *)
Inductive ErrorCode :=
| CANNOT_COMPRESS
| CANNOT_DECOMPRESS
| ILLEGAL_SYNTAX_FOR_CODEC_TYPE
| ILLEGAL_CODEC_PARAMETER
| BAD_GET.

Record Exception := { message : string; code : ErrorCode }.

Definition Exc (A : Type) : Type := Exception + A.

Definition throw {A} (msg : string) (c : ErrorCode) : Exc A :=
  inl {| message := msg; code := c |}.

Definition bind {A B} (m : Exc A) (k : A -> Exc B) : Exc B :=
  match m with
  | inl e => inl e
  | inr a => k a
  end.

Notation "x <- m ;; k" := (bind m (fun x => k))
  (at level 61, m at next level, right associativity).

Definition error_code {A} (r : Exc A) : option ErrorCode :=
  match r with
  | inl e => Some (code e)
  | inr _ => None
  end.

(** ** Codec arguments *)

(** A literal holds a [Field]; only its [UInt64] alternative is read here. *)
Inductive Field :=
| Field_UInt64 (v : Z)
| Field_Other.

(** The children of the argument list: literals, or any other node, for
    which [as<ASTLiteral>()] is null. *)
Inductive IAST :=
| ASTLiteral (value : Field)
| ASTOther.

Definition as_ASTLiteral (a : IAST) : option Field :=
  match a with
  | ASTLiteral f => Some f
  | ASTOther => None
  end.

Definition safeGet_UInt64 (f : Field) : Exc Z :=
  match f with
  | Field_UInt64 v => inr v
  | Field_Other => throw "Bad get" BAD_GET
  end.

(** [ASTPtr arguments]: possibly null, otherwise a list of children. *)
Definition ASTPtr := option (list IAST).

(** ** The external libraries *)

Inductive ZSTD_cParameter :=
| ZSTD_c_compressionLevel
| ZSTD_c_windowLog
| ZSTD_c_enableLongDistanceMatching
| ZSTD_c_enableSeqProducerFallback.

Record ZSTD_bounds := { error : Z; lowerBound : Z; upperBound : Z }.

(** A compression context is the sequence of configuration calls made on it
    since [ZSTD_createCCtx], oldest first.  The return codes of these calls
    are dropped by the codec, so only the calls themselves are kept. *)
Inductive CCtxCall :=
| SetParameter (param : ZSTD_cParameter) (value : Z)
| RegisterSequenceProducer (state : Z).

Definition ZSTD_CCtx := list CCtxCall.

Definition ZSTD_createCCtx : ZSTD_CCtx := [].

Definition ZSTD_CCtx_setParameter
  (cctx : ZSTD_CCtx) (param : ZSTD_cParameter) (value : Z) : ZSTD_CCtx :=
  (cctx ++ [SetParameter param value])%list.

Definition ZSTD_registerSequenceProducer
  (cctx : ZSTD_CCtx) (state : Z) : ZSTD_CCtx :=
  (cctx ++ [RegisterSequenceProducer state])%list.

(** What the file takes from [zstd.h], [qatseqprod.h] and
    [CompressionInfo.h].  [World] is the state of the QAT device and driver;
    sizes are [size_t] values, levels and bounds are [int] values, and a
    buffer result is the pair of the returned [size_t] and the bytes written
    to the destination. *)
Class Env := {
  World : Type;
  CompressionMethodByte_ZSTD : Z;
  ZSTD_compressBound : Z -> Z;
  ZSTD_maxCLevel : Z;
  ZSTD_cParam_getBounds : ZSTD_cParameter -> ZSTD_bounds;
  ZSTD_isError : Z -> bool;
  ZSTD_getErrorName : Z -> string;
  ZSTD_compress2 : World -> ZSTD_CCtx -> Z -> bytes -> Z * bytes;
  ZSTD_decompress : Z -> bytes -> Z * bytes;
  QZSTD_startQatDevice : World -> Z * World;
  QZSTD_createSeqProdState : World -> Z * World;
  QZSTD_freeSeqProdState : Z -> World -> World
}.

(** ** CompressionCodecZSTD *)

Definition ZSTD_DEFAULT_LEVEL : Z := 1.
Definition ZSTD_DEFAULT_LOG_WINDOW : Z := 24.

(** [setCodecDescription (name, arguments)]: the arguments are [UInt64]
    literals. *)
Record CodecDesc := { desc_name : string; desc_args : list Z }.

Record CompressionCodecZSTD := {
  level : Z;
  enable_long_range : bool;
  window_log : Z;
  codec_desc : CodecDesc
}.

Definition new_CompressionCodecZSTD_2 (level_ window_log_ : Z)
  : CompressionCodecZSTD :=
  {| level := level_;
     enable_long_range := true;
     window_log := window_log_;
     codec_desc := {| desc_name := "ZSTD";
                      desc_args := [to_UInt64 level_; to_UInt64 window_log_] |} |}.

Definition new_CompressionCodecZSTD_1 (level_ : Z) : CompressionCodecZSTD :=
  {| level := level_;
     enable_long_range := false;
     window_log := 0;
     codec_desc := {| desc_name := "ZSTD";
                      desc_args := [to_UInt64 level_] |} |}.

Definition getCompressionCodecZSTD (level_ : Z) : CompressionCodecZSTD :=
  new_CompressionCodecZSTD_1 level_.

(** What a compress call leaves behind: the bytes written to [dest] and
    either the thrown exception or the returned [UInt32]. *)
Record Compressed := { dest : bytes; returned : Exc Z }.

Section WithEnv.

Context {E : Env}.

Definition getMethodByte (c : CompressionCodecZSTD) : Z :=
  to_UInt8 CompressionMethodByte_ZSTD.

Definition getMaxCompressedDataSize
  (c : CompressionCodecZSTD) (uncompressed_size : Z) : Z :=
  to_UInt32 (ZSTD_compressBound uncompressed_size).

(** [source_size] is the length of [source].  The context lives for the
    one call only. *)
Definition doCompressData
  (c : CompressionCodecZSTD) (w : World) (source : bytes) : Compressed :=
  let source_size := size source in
  let cctx := ZSTD_createCCtx in
  let cctx := ZSTD_CCtx_setParameter cctx ZSTD_c_compressionLevel (level c) in
  let cctx :=
    if enable_long_range c
    then
      let cctx :=
        ZSTD_CCtx_setParameter cctx ZSTD_c_enableLongDistanceMatching 1 in
      ZSTD_CCtx_setParameter cctx ZSTD_c_windowLog (window_log c)
    else cctx in
  let '(compressed_size, written) :=
    ZSTD_compress2 w cctx (ZSTD_compressBound source_size) source in
  {| dest := written;
     returned :=
       if ZSTD_isError compressed_size
       then throw ("Cannot compress block with ZSTD: "
                   ++ ZSTD_getErrorName compressed_size)%string CANNOT_COMPRESS
       else inr (to_UInt32 compressed_size) |}.

(** [doDecompressData]: on success the bytes written to [dest]. *)
Definition doDecompressData
  (c : CompressionCodecZSTD) (source : bytes) (uncompressed_size : Z)
  : Exc bytes :=
  let '(res, written) := ZSTD_decompress uncompressed_size source in
  if ZSTD_isError res
  then throw ("Cannot ZSTD_decompress: " ++ ZSTD_getErrorName res)%string
             CANNOT_DECOMPRESS
  else inr written.

(** The creator closure [registerCodecZSTD] hands to the factory. *)
Definition registerCodecZSTD_creator (arguments : ASTPtr)
  : Exc CompressionCodecZSTD :=
  let level := ZSTD_DEFAULT_LEVEL in
  match arguments with
  | Some ((child0 :: _) as children) =>
    if Z.of_nat (List.length children) >? 2
    then throw ("ZSTD codec must have 1 or 2 parameters, given "
                ++ toString (Z.of_nat (List.length children)))%string
               ILLEGAL_SYNTAX_FOR_CODEC_TYPE
    else
      match as_ASTLiteral child0 with
      | None =>
        throw "ZSTD codec argument must be integer" ILLEGAL_CODEC_PARAMETER
      | Some literal =>
        v <- safeGet_UInt64 literal ;;
        let level := to_int v in
        if level >? ZSTD_maxCLevel
        then throw ("ZSTD codec can't have level more than "
                    ++ toString ZSTD_maxCLevel ++ ", given "
                    ++ toString level)%string
                   ILLEGAL_CODEC_PARAMETER
        else
          match children with
          | _ :: child1 :: _ =>
            match as_ASTLiteral child1 with
            | None =>
              throw "ZSTD codec second argument must be integer"
                    ILLEGAL_CODEC_PARAMETER
            | Some window_literal =>
              v' <- safeGet_UInt64 window_literal ;;
              let window_log := to_int v' in
              let window_log_bounds :=
                ZSTD_cParam_getBounds ZSTD_c_windowLog in
              if ZSTD_isError (error window_log_bounds)
              then throw ("ZSTD windowLog parameter is not supported "
                          ++ ZSTD_getErrorName (error window_log_bounds))%string
                         ILLEGAL_CODEC_PARAMETER
              else if negb (window_log =? 0)
                      && ((window_log >? upperBound window_log_bounds)
                          || (window_log <? lowerBound window_log_bounds))
              then throw ("ZSTD codec can't have window log more than "
                          ++ toString (upperBound window_log_bounds)
                          ++ " and lower than "
                          ++ toString (lowerBound window_log_bounds)
                          ++ ", given " ++ toString window_log)%string
                         ILLEGAL_CODEC_PARAMETER
              else inr (new_CompressionCodecZSTD_2 level window_log)
            end
          | _ => inr (new_CompressionCodecZSTD_1 level)
          end
      end
  | _ => inr (new_CompressionCodecZSTD_1 level)
  end.

(** ** CompressionCodecQATZSTD *)

Definition QATZSTD_SUPPORTED_MIN_LEVEL : Z := 1.
Definition QATZSTD_SUPPORTED_MAX_LEVEL : Z := 12.

(** The derived class: the [CompressionCodecZSTD] subobject, its own [level]
    and the mutable session fields.  The constructor leaves [cctx] and
    [sequenceProducerState] unset; the values they hold before the first
    compress call stand for indeterminate pointers and are never read. *)
Record CompressionCodecQATZSTD := {
  base : CompressionCodecZSTD;
  qat_level : Z;
  initialized : bool;
  cctx : ZSTD_CCtx;
  sequenceProducerState : Z;
  log : string
}.

Definition setCodecDescription
  (c : CompressionCodecZSTD) (name : string) (args : list Z)
  : CompressionCodecZSTD :=
  {| level := level c;
     enable_long_range := enable_long_range c;
     window_log := window_log c;
     codec_desc := {| desc_name := name; desc_args := args |} |}.

Definition new_CompressionCodecQATZSTD (level_ : Z)
  : CompressionCodecQATZSTD :=
  {| base := setCodecDescription (new_CompressionCodecZSTD_1 level_)
                                 "QATZSTD" [to_UInt64 level_];
     qat_level := level_;
     initialized := false;
     cctx := [];
     sequenceProducerState := 0;
     log := "CompressionCodecQATZSTD" |}.

(** The creator closure [registerCodecQATZSTD] hands to the factory. *)
Definition registerCodecQATZSTD_creator (arguments : ASTPtr)
  : Exc CompressionCodecQATZSTD :=
  let level := ZSTD_DEFAULT_LEVEL in
  match arguments with
  | Some ((child0 :: _) as children) =>
    if Z.of_nat (List.length children) >? 1
    then throw ("QATZSTD codec must have 1 parameter, given "
                ++ toString (Z.of_nat (List.length children)))%string
               ILLEGAL_SYNTAX_FOR_CODEC_TYPE
    else
      match as_ASTLiteral child0 with
      | None =>
        throw "QATZSTD codec argument must be integer" ILLEGAL_CODEC_PARAMETER
      | Some literal =>
        v <- safeGet_UInt64 literal ;;
        let level := to_int v in
        if (level >? QATZSTD_SUPPORTED_MAX_LEVEL)
           || (level <? QATZSTD_SUPPORTED_MIN_LEVEL)
        then throw ("QATZSTD codec doesn't support level more than "
                    ++ toString QATZSTD_SUPPORTED_MAX_LEVEL
                    ++ " and lower than "
                    ++ toString QATZSTD_SUPPORTED_MIN_LEVEL
                    ++ ", given " ++ toString level)%string
                   ILLEGAL_CODEC_PARAMETER
        else inr (new_CompressionCodecQATZSTD level)
      end
  | _ => inr (new_CompressionCodecQATZSTD level)
  end.

(** Calls that acquire or release a resource, and log records, in the order
    they happen. *)
Inductive Event :=
| Call_ZSTD_createCCtx
| Call_QZSTD_startQatDevice (res : Z)
| Call_QZSTD_createSeqProdState (state : Z)
| LOG_WARNING (logger : string) (fmt : string) (arg : Z)
| Call_QZSTD_freeSeqProdState (state : Z)
| Call_ZSTD_freeCCtx (cctx : ZSTD_CCtx).

Record Process := { world : World; trace : list Event }.

Definition emit (p : Process) (w : World) (evs : list Event) : Process :=
  {| world := w; trace := (trace p ++ evs)%list |}.

(** The override of [doCompressData]: the mutable fields of the instance
    and the process are threaded through the call. *)
Definition QATZSTD_doCompressData
  (q : CompressionCodecQATZSTD) (p : Process) (source : bytes)
  : CompressionCodecQATZSTD * Process * Compressed :=
  let source_size := size source in
  let '(q, p) :=
    if negb (initialized q)
    then
      let cctx := ZSTD_createCCtx in
      let '(res, w) := QZSTD_startQatDevice (world p) in
      let '(state, w) := QZSTD_createSeqProdState w in
      let cctx := ZSTD_registerSequenceProducer cctx state in
      let cctx :=
        ZSTD_CCtx_setParameter cctx ZSTD_c_enableSeqProducerFallback 1 in
      let cctx :=
        ZSTD_CCtx_setParameter cctx ZSTD_c_compressionLevel (qat_level q) in
      ({| base := base q;
          qat_level := qat_level q;
          initialized := true;
          cctx := cctx;
          sequenceProducerState := state;
          log := log q |},
       emit p w
         [Call_ZSTD_createCCtx;
          Call_QZSTD_startQatDevice res;
          Call_QZSTD_createSeqProdState state;
          LOG_WARNING (log q)
            "Initialization of hardware-assisted(QAT) ZSTD codec result: {} "
            (to_UInt32 res)])
    else (q, p) in
  let '(compressed_size, written) :=
    ZSTD_compress2 (world p) (cctx q) (ZSTD_compressBound source_size) source in
  (q, p,
   {| dest := written;
      returned :=
        if ZSTD_isError compressed_size
        then throw ("Cannot compress block with ZSTD: "
                    ++ ZSTD_getErrorName compressed_size)%string CANNOT_COMPRESS
        else inr (to_UInt32 compressed_size) |}).

(** [~CompressionCodecQATZSTD]. *)
Definition QATZSTD_destroy (q : CompressionCodecQATZSTD) (p : Process)
  : Process :=
  if initialized q
  then
    emit p (QZSTD_freeSeqProdState (sequenceProducerState q) (world p))
      [Call_QZSTD_freeSeqProdState (sequenceProducerState q);
       Call_ZSTD_freeCCtx (cctx q)]
  else p.

(** ** Registration *)

(** A codec behind [CompressionCodecPtr]; the members QATZSTD does not
    override are those of its [CompressionCodecZSTD] subobject. *)
Inductive Codec :=
| Codec_ZSTD (c : CompressionCodecZSTD)
| Codec_QATZSTD (q : CompressionCodecQATZSTD).

Definition as_ZSTD (c : Codec) : CompressionCodecZSTD :=
  match c with
  | Codec_ZSTD z => z
  | Codec_QATZSTD q => base q
  end.

(** The three arguments of [factory.registerCompressionCodec]. *)
Record Registration := {
  family_name : string;
  byte_code : option Z;
  creator : ASTPtr -> Exc Codec
}.

Definition registerCodecZSTD : Registration :=
  let method_code := to_UInt8 CompressionMethodByte_ZSTD in
  {| family_name := "ZSTD";
     byte_code := Some method_code;
     creator := fun arguments =>
       c <- registerCodecZSTD_creator arguments ;; inr (Codec_ZSTD c) |}.

Definition registerCodecQATZSTD : Registration :=
  {| family_name := "QATZSTD";
     byte_code := None;
     creator := fun arguments =>
       q <- registerCodecQATZSTD_creator arguments ;; inr (Codec_QATZSTD q) |}.

(** One compress call through the codec pointer. *)
Definition Codec_compress (c : Codec) (p : Process) (source : bytes)
  : Codec * Process * Compressed :=
  match c with
  | Codec_ZSTD z => (c, p, doCompressData z (world p) source)
  | Codec_QATZSTD q =>
    let '(q', p', r) := QATZSTD_doCompressData q p source in
    (Codec_QATZSTD q', p', r)
  end.

End WithEnv.

(** ** Driving a codec *)

Section Driver.

Context {E : Env}.

(** The codecs the two registrations can hand out, and the states they reach
    as compress calls are made on them. *)
Inductive Reachable : Codec -> Prop :=
| Reachable_created (r : Registration) (arguments : ASTPtr) (c : Codec) :
    In r [registerCodecZSTD; registerCodecQATZSTD] ->
    creator r arguments = inr c ->
    Reachable c
| Reachable_compressed (c : Codec) (p : Process) (source : bytes) :
    Reachable c ->
    Reachable (fst (fst (Codec_compress c p source))).

(** Successive compress calls on one QATZSTD instance. *)
Fixpoint QATZSTD_run
  (q : CompressionCodecQATZSTD) (p : Process) (blocks : list bytes)
  : CompressionCodecQATZSTD * Process * list Compressed :=
  match blocks with
  | [] => (q, p, [])
  | source :: rest =>
    let '(q1, p1, r) := QATZSTD_doCompressData q p source in
    let '(q2, p2, rs) := QATZSTD_run q1 p1 rest in
    (q2, p2, r :: rs)
  end.

(** The caller stores the first [n] bytes of [dest], where [n] is the value
    compress returned, and later decompresses them with the original size. *)
Definition decompresses_to
  (c : CompressionCodecZSTD) (r : Compressed) (source : bytes) : Prop :=
  exists n,
    returned r = inr n /\
    doDecompressData c (take n (dest r)) (size source) = inr source.

Definition is_LOG_WARNING (e : Event) : bool :=
  match e with
  | LOG_WARNING _ _ _ => true
  | _ => false
  end.

End Driver.

(** ** The contract of the external libraries *)

Definition cParameter_eqb (a b : ZSTD_cParameter) : bool :=
  match a, b with
  | ZSTD_c_compressionLevel, ZSTD_c_compressionLevel
  | ZSTD_c_windowLog, ZSTD_c_windowLog
  | ZSTD_c_enableLongDistanceMatching, ZSTD_c_enableLongDistanceMatching
  | ZSTD_c_enableSeqProducerFallback, ZSTD_c_enableSeqProducerFallback => true
  | _, _ => false
  end.

(** The value a parameter holds after the calls of a context, [d] if it was
    never set. *)
Fixpoint param_value (param : ZSTD_cParameter) (d : Z) (cctx : ZSTD_CCtx) : Z :=
  match cctx with
  | [] => d
  | SetParameter param' v :: rest =>
    param_value param (if cParameter_eqb param param' then v else d) rest
  | RegisterSequenceProducer _ :: rest => param_value param d rest
  end.

Definition has_producer (cctx : ZSTD_CCtx) : bool :=
  existsb (fun call => match call with
                       | RegisterSequenceProducer _ => true
                       | SetParameter _ _ => false
                       end) cctx.

(** A context compresses in software when no external sequence producer is
    registered, or when the engine may fall back from a failing one. *)
Definition software_reachable (cctx : ZSTD_CCtx) : bool :=
  negb (has_producer cctx)
  || negb (param_value ZSTD_c_enableSeqProducerFallback 0 cctx =? 0).

(** What the documentation of libzstd promises and the codecs rely on, for
    inputs whose size is a [UInt32]: [ZSTD_compress2] stays inside the
    capacity it is given, succeeds when that capacity is
    [ZSTD_compressBound] of the input and the context can compress in
    software, reports the number of bytes it wrote, and [ZSTD_decompress]
    inverts it. *)
Class EnvOk (E : Env) : Prop := {
  compressBound_nonneg : forall n, 0 <= n -> 0 <= ZSTD_compressBound n;
  compress2_capacity : forall w cctx cap src,
    0 <= cap -> size (snd (ZSTD_compress2 w cctx cap src)) <= cap;
  compress2_succeeds : forall w cctx src,
    software_reachable cctx = true ->
    size src < 2 ^ 32 ->
    ZSTD_isError
      (fst (ZSTD_compress2 w cctx (ZSTD_compressBound (size src)) src)) = false;
  compress2_written : forall w cctx cap src,
    ZSTD_isError (fst (ZSTD_compress2 w cctx cap src)) = false ->
    fst (ZSTD_compress2 w cctx cap src)
    = size (snd (ZSTD_compress2 w cctx cap src));
  decompress_compress2 : forall w cctx cap src,
    size src < 2 ^ 32 ->
    ZSTD_isError (fst (ZSTD_compress2 w cctx cap src)) = false ->
    exists res,
      ZSTD_decompress (size src) (snd (ZSTD_compress2 w cctx cap src))
      = (res, src)
      /\ ZSTD_isError res = false
}.

(** ** Two instances of the interface *)

(** [LibZstd.env] is an instance with the constants and formulas that
    the external header [zstd.h] documents for a 64-bit platform: the bound
    formula, the maximum level 22, the window-log bounds 10..31 and the
    error-code convention. *)
Module LibZstd.

Definition ZSTD_MAX_INPUT_SIZE : Z := 0xFF00FF00FF00FF00.

Definition ERROR (n : Z) : Z := 2 ^ 64 - n.

Definition srcSize_wrong : Z := 72.
Definition dstSize_tooSmall : Z := 70.
Definition prefix_unknown : Z := 10.
Definition parameter_unsupported : Z := 40.
Definition sequenceProducer_failed : Z := 106.
Definition maxCode : Z := 120.

(** [ZSTD_compressBound]: the macro [ZSTD_COMPRESSBOUND] of [zstd.h], an
    error code from [ZSTD_MAX_INPUT_SIZE] on. *)
Definition compressBound (srcSize : Z) : Z :=
  if srcSize >=? ZSTD_MAX_INPUT_SIZE
  then ERROR srcSize_wrong
  else srcSize + Z.shiftr srcSize 8
       + (if srcSize <? Z.shiftl 128 10
          then Z.shiftr (Z.shiftl 128 10 - srcSize) 11
          else 0).

Definition isError (c : Z) : bool := c >? ERROR maxCode.

Definition getErrorName (c : Z) : string :=
  if c =? ERROR dstSize_tooSmall then "Destination buffer is too small"
  else if c =? ERROR prefix_unknown then "Unknown frame descriptor"
  else if c =? ERROR parameter_unsupported then "Unsupported parameter"
  else if c =? ERROR sequenceProducer_failed
       then "Block-level external sequence producer returned an error code"
  else if isError c then "Unspecified error code"
  else "No error detected".

Definition getBounds (param : ZSTD_cParameter) : ZSTD_bounds :=
  match param with
  | ZSTD_c_compressionLevel =>
    {| error := 0; lowerBound := - Z.shiftl 1 17; upperBound := 22 |}
  | ZSTD_c_windowLog => {| error := 0; lowerBound := 10; upperBound := 31 |}
  | ZSTD_c_enableLongDistanceMatching =>
    {| error := 0; lowerBound := 0; upperBound := 2 |}
  | ZSTD_c_enableSeqProducerFallback =>
    {| error := 0; lowerBound := 0; upperBound := 1 |}
  end.

(** A stand-in for the compressor itself: the frame is a four-byte magic
    followed by the input, stored as it is.  The world says whether a QAT
    device is present; a registered sequence producer fails without one. *)
Definition magic : bytes := [x28; xb5; x2f; xfd].

Definition compress2
  (device : bool) (cctx : ZSTD_CCtx) (dstCapacity : Z) (src : bytes)
  : Z * bytes :=
  if negb device && negb (software_reachable cctx)
  then (ERROR sequenceProducer_failed, [])
  else if size (magic ++ src) <=? dstCapacity
  then (size (magic ++ src), (magic ++ src)%list)
  else (ERROR dstSize_tooSmall, []).

Definition decompress (dstCapacity : Z) (src : bytes) : Z * bytes :=
  match src with
  | x28 :: xb5 :: x2f :: xfd :: body =>
    if size body <=? dstCapacity
    then (size body, body)
    else (ERROR dstSize_tooSmall, [])
  | _ => (ERROR prefix_unknown, [])
  end.

Definition startQatDevice (device : bool) : Z * bool :=
  (if device then 0 else -1, device).

Definition env : Env := {|
  World := bool;
  CompressionMethodByte_ZSTD := 0x90;
  ZSTD_compressBound := compressBound;
  ZSTD_maxCLevel := 22;
  ZSTD_cParam_getBounds := getBounds;
  ZSTD_isError := isError;
  ZSTD_getErrorName := getErrorName;
  ZSTD_compress2 := compress2;
  ZSTD_decompress := decompress;
  QZSTD_startQatDevice := startQatDevice;
  QZSTD_createSeqProdState := fun device => (1, device);
  QZSTD_freeSeqProdState := fun _ device => device
|}.

(** The same library built without the window-log parameter: the bounds
    query reports an error. *)
Definition env_without_windowLog : Env := {|
  World := bool;
  CompressionMethodByte_ZSTD := 0x90;
  ZSTD_compressBound := compressBound;
  ZSTD_maxCLevel := 22;
  ZSTD_cParam_getBounds := fun param =>
    match param with
    | ZSTD_c_windowLog =>
      {| error := ERROR parameter_unsupported;
         lowerBound := 0; upperBound := 0 |}
    | _ => getBounds param
    end;
  ZSTD_isError := isError;
  ZSTD_getErrorName := getErrorName;
  ZSTD_compress2 := compress2;
  ZSTD_decompress := decompress;
  QZSTD_startQatDevice := startQatDevice;
  QZSTD_createSeqProdState := fun device => (1, device);
  QZSTD_freeSeqProdState := fun _ device => device
|}.

(** A process that has made no call yet, on a host with or without a QAT
    device. *)
Definition host (device : bool) : @Process env :=
  @Build_Process env device [].

End LibZstd.

(** ** Proof-side definitions *)

Section Results.

Context {E : Env}.

(** What one [ZSTD_compress2] call on a given context leaves behind once the
    error check and the narrowing [return] are done. *)
Definition compress_result
  (w : World) (cctx : ZSTD_CCtx) (source : bytes) : Compressed :=
  let r := ZSTD_compress2 w cctx (ZSTD_compressBound (size source)) source in
  {| dest := snd r;
     returned :=
       if ZSTD_isError (fst r)
       then throw ("Cannot compress block with ZSTD: "
                   ++ ZSTD_getErrorName (fst r))%string CANNOT_COMPRESS
       else inr (to_UInt32 (fst r)) |}.

(** The context a QATZSTD instance caches on its first compress call. *)
Definition session_cctx (state level_ : Z) : ZSTD_CCtx :=
  [RegisterSequenceProducer state;
   SetParameter ZSTD_c_enableSeqProducerFallback 1;
   SetParameter ZSTD_c_compressionLevel level_].

(** The context the software codec builds on every compress call. *)
Definition software_cctx (c : CompressionCodecZSTD) : ZSTD_CCtx :=
  if enable_long_range c
  then [SetParameter ZSTD_c_compressionLevel (level c);
        SetParameter ZSTD_c_enableLongDistanceMatching 1;
        SetParameter ZSTD_c_windowLog (window_log c)]
  else [SetParameter ZSTD_c_compressionLevel (level c)].

(** The events of the lazy initialisation. *)
Definition session_events (q : CompressionCodecQATZSTD) (res state : Z)
  : list Event :=
  [Call_ZSTD_createCCtx;
   Call_QZSTD_startQatDevice res;
   Call_QZSTD_createSeqProdState state;
   LOG_WARNING (log q)
     "Initialization of hardware-assisted(QAT) ZSTD codec result: {} "
     (to_UInt32 res)].

(** The invariant of a codec behind the pointer: an initialised QATZSTD
    session can compress in software. *)
Definition session_ok (c : Codec) : Prop :=
  match c with
  | Codec_ZSTD _ => True
  | Codec_QATZSTD q =>
    initialized q = true -> software_reachable (cctx q) = true
  end.

End Results.

Definition lit (v : Z) : IAST := ASTLiteral (Field_UInt64 v).

(** * Lemmas *)

Section IntFacts.

Lemma to_int_congr (v1 v2 : Z) :
  to_UInt32 v1 = to_UInt32 v2 -> to_int v1 = to_int v2.
Proof.
  unfold to_UInt32, to_int. intros H.
  rewrite <- (Z.add_mod_idemp_l v1), <- (Z.add_mod_idemp_l v2) by lia.
  now rewrite H.
Qed.

Lemma to_int_small (v : Z) : - 2 ^ 31 <= v < 2 ^ 31 -> to_int v = v.
Proof.
  unfold to_int. intros H. rewrite Z.mod_small; lia.
Qed.

Lemma to_int_range (v : Z) : - 2 ^ 31 <= to_int v < 2 ^ 31.
Proof.
  unfold to_int. pose proof (Z.mod_pos_bound (v + 2 ^ 31) (2 ^ 32)). lia.
Qed.

Lemma to_UInt32_small (v : Z) : 0 <= v < 2 ^ 32 -> to_UInt32 v = v.
Proof. unfold to_UInt32. intros H. now apply Z.mod_small. Qed.

Lemma to_UInt32_range (v : Z) : 0 <= to_UInt32 v < 2 ^ 32.
Proof. unfold to_UInt32. apply Z.mod_pos_bound. lia. Qed.

Lemma size_nonneg (b : bytes) : 0 <= size b.
Proof. unfold size. lia. Qed.

Lemma take_size (b : bytes) : take (size b) b = b.
Proof.
  unfold take, size. rewrite Nat2Z.id. apply firstn_all.
Qed.

End IntFacts.

(** ** The compress paths *)

Section Paths.

Context {E : Env}.

Lemma doCompressData_result (c : CompressionCodecZSTD) (w : World) (source : bytes) :
  doCompressData c w source = compress_result w (software_cctx c) source.
Proof.
  unfold doCompressData, compress_result, software_cctx.
  destruct (enable_long_range c); cbn [ZSTD_createCCtx ZSTD_CCtx_setParameter app];
    destruct (ZSTD_compress2 _ _ _ _); reflexivity.
Qed.

Lemma QATZSTD_first_call (q : CompressionCodecQATZSTD) (p : Process) (source : bytes) :
  initialized q = false ->
  QATZSTD_doCompressData q p source =
  let started := QZSTD_startQatDevice (world p) in
  let created := QZSTD_createSeqProdState (snd started) in
  let cctx' := session_cctx (fst created) (qat_level q) in
  ({| base := base q;
      qat_level := qat_level q;
      initialized := true;
      cctx := cctx';
      sequenceProducerState := fst created;
      log := log q |},
   emit p (snd created) (session_events q (fst started) (fst created)),
   compress_result (snd created) cctx' source).
Proof.
  intros H. unfold QATZSTD_doCompressData, compress_result, session_events.
  rewrite H. cbn [negb].
  destruct (QZSTD_startQatDevice (world p)) as [res w1].
  cbn [fst snd]. destruct (QZSTD_createSeqProdState w1) as [st w2].
  cbn [fst snd emit world cctx ZSTD_createCCtx ZSTD_CCtx_setParameter
       ZSTD_registerSequenceProducer app session_cctx].
  destruct (ZSTD_compress2 _ _ _ _); reflexivity.
Qed.

Lemma QATZSTD_later_call (q : CompressionCodecQATZSTD) (p : Process) (source : bytes) :
  initialized q = true ->
  QATZSTD_doCompressData q p source
  = (q, p, compress_result (world p) (cctx q) source).
Proof.
  intros H. unfold QATZSTD_doCompressData, compress_result.
  rewrite H. cbn [negb].
  destruct (ZSTD_compress2 _ _ _ _); reflexivity.
Qed.

(** Past the [UInt32] range the value returned is not the engine bound. *)
Lemma getMaxCompressedDataSize_wraps (c : CompressionCodecZSTD) (n : Z) :
  2 ^ 32 <= ZSTD_compressBound n ->
  getMaxCompressedDataSize c n < ZSTD_compressBound n.
Proof.
  intros H. unfold getMaxCompressedDataSize.
  pose proof (to_UInt32_range (ZSTD_compressBound n)). lia.
Qed.

Lemma software_cctx_reachable (c : CompressionCodecZSTD) :
  software_reachable (software_cctx c) = true.
Proof. unfold software_cctx. destruct (enable_long_range c); reflexivity. Qed.

Lemma session_cctx_reachable (state level_ : Z) :
  software_reachable (session_cctx state level_) = true.
Proof. reflexivity. Qed.

End Paths.

(** ** Consequences of the contract *)

Section Contract.

Context {E : Env} {EO : EnvOk E}.

Lemma compress_result_dest_size (w : World) (cctx : ZSTD_CCtx) (source : bytes) :
  size (dest (compress_result w cctx source))
  <= ZSTD_compressBound (size source).
Proof.
  unfold compress_result. cbn [dest].
  apply compress2_capacity, compressBound_nonneg, size_nonneg.
Qed.

Lemma compress_result_returns (w : World) (cctx : ZSTD_CCtx) (source : bytes) :
  software_reachable cctx = true ->
  size source < 2 ^ 32 ->
  ZSTD_compressBound (size source) < 2 ^ 32 ->
  returned (compress_result w cctx source)
  = inr (size (dest (compress_result w cctx source))).
Proof.
  intros Hsw Hsrc Hfit.
  pose proof (compress_result_dest_size w cctx source) as Hcap.
  pose proof (compress2_succeeds w cctx source Hsw Hsrc) as Hok.
  pose proof (compress2_written w cctx _ source Hok) as Hwr.
  unfold compress_result in *. cbn [dest returned] in *.
  rewrite Hok, Hwr. f_equal. apply to_UInt32_small.
  split; [apply size_nonneg | lia].
Qed.

Lemma compress_result_roundtrip
  (z : CompressionCodecZSTD) (w : World) (cctx : ZSTD_CCtx) (source : bytes) :
  software_reachable cctx = true ->
  size source < 2 ^ 32 ->
  ZSTD_compressBound (size source) < 2 ^ 32 ->
  decompresses_to z (compress_result w cctx source) source.
Proof.
  intros Hsw Hsrc Hfit. exists (size (dest (compress_result w cctx source))).
  split; [now apply compress_result_returns|].
  rewrite take_size.
  pose proof (compress2_succeeds w cctx source Hsw Hsrc) as Hok.
  destruct (decompress_compress2 w cctx _ source Hsrc Hok)
    as (res & Hdec & Hres).
  unfold doDecompressData, compress_result. cbn [dest].
  rewrite Hdec, Hres. reflexivity.
Qed.

(** A compress call keeps the invariant, and runs on a context that can
    compress in software. *)
Lemma Codec_compress_result (c : Codec) (p : Process) (source : bytes) :
  session_ok c ->
  exists w cctx',
    snd (Codec_compress c p source) = compress_result w cctx' source
    /\ software_reachable cctx' = true
    /\ session_ok (fst (fst (Codec_compress c p source)))
    /\ as_ZSTD (fst (fst (Codec_compress c p source))) = as_ZSTD c.
Proof.
  destruct c as [z|q]; cbn [session_ok Codec_compress].
  - intros _. exists (world p), (software_cctx z). cbn [fst snd].
    repeat split; [apply doCompressData_result | apply software_cctx_reachable].
  - intros Hinv. destruct (initialized q) eqn:Hi.
    + rewrite (QATZSTD_later_call q p source Hi). cbn [fst snd].
      exists (world p), (cctx q).
      split; [reflexivity|]. split; [now apply Hinv|].
      split; [|reflexivity].
      cbn [session_ok]. intros _. now apply Hinv.
    + rewrite (QATZSTD_first_call q p source Hi). cbv zeta. cbn [fst snd].
      eexists _, _.
      split; [reflexivity|]. split; [apply session_cctx_reachable|].
      split; [|reflexivity].
      cbn [session_ok cctx]. intros _. apply session_cctx_reachable.
Qed.

Lemma QATZSTD_creator_new (arguments : ASTPtr) (q : CompressionCodecQATZSTD) :
  registerCodecQATZSTD_creator arguments = inr q ->
  exists level_,
    q = new_CompressionCodecQATZSTD level_
    /\ QATZSTD_SUPPORTED_MIN_LEVEL <= level_ <= QATZSTD_SUPPORTED_MAX_LEVEL.
Proof.
  unfold registerCodecQATZSTD_creator.
  destruct arguments as [[|child0 rest]|].
  - intros H; inversion H. exists ZSTD_DEFAULT_LEVEL. split; [reflexivity|].
    unfold ZSTD_DEFAULT_LEVEL, QATZSTD_SUPPORTED_MIN_LEVEL,
      QATZSTD_SUPPORTED_MAX_LEVEL. lia.
  - destruct (Z.of_nat (List.length (child0 :: rest)) >? 1); [discriminate|].
    destruct child0 as [[v|]|]; cbn [as_ASTLiteral safeGet_UInt64 bind throw];
      try discriminate.
    destruct ((to_int v >? QATZSTD_SUPPORTED_MAX_LEVEL)
              || (to_int v <? QATZSTD_SUPPORTED_MIN_LEVEL)) eqn:Hrange;
      [discriminate|].
    intros H; inversion H. exists (to_int v). split; [reflexivity|].
    apply orb_false_iff in Hrange. lia.
  - intros H; inversion H. exists ZSTD_DEFAULT_LEVEL. split; [reflexivity|].
    unfold ZSTD_DEFAULT_LEVEL, QATZSTD_SUPPORTED_MIN_LEVEL,
      QATZSTD_SUPPORTED_MAX_LEVEL. lia.
Qed.

Lemma created_session_ok (r : Registration) (arguments : ASTPtr) (c : Codec) :
  In r [registerCodecZSTD; registerCodecQATZSTD] ->
  creator r arguments = inr c ->
  session_ok c.
Proof.
  intros [<-|[<-|[]]]; cbn [creator registerCodecZSTD registerCodecQATZSTD].
  - destruct (registerCodecZSTD_creator arguments); cbn [bind]; intros H;
      inversion H; subst; exact I.
  - destruct (registerCodecQATZSTD_creator arguments) as [e|q] eqn:Hq;
      cbn [bind]; intros H; inversion H; subst.
    destruct (QATZSTD_creator_new _ _ Hq) as (level_ & -> & _).
    cbn [session_ok new_CompressionCodecQATZSTD initialized]. discriminate.
Qed.

Lemma Reachable_session_ok (c : Codec) : Reachable c -> session_ok c.
Proof.
  induction 1 as [r arguments c Hr Hc | c p source _ IH].
  - eapply created_session_ok; eassumption.
  - destruct (Codec_compress_result c p source IH) as (_ & _ & _ & _ & H & _).
    exact H.
Qed.

End Contract.

(** ** The instance satisfies the contract *)

Module LibZstdFacts.

Import LibZstd.

Lemma compressBound_small (n : Z) :
  0 <= n < 2 ^ 32 ->
  compressBound n
  = n + n / 256 + (if n <? 131072 then (131072 - n) / 2048 else 0).
Proof.
  intros Hn. unfold compressBound, ZSTD_MAX_INPUT_SIZE.
  destruct (n >=? 18374966859414961920) eqn:Hmax; [lia|].
  rewrite !Z.shiftr_div_pow2 by lia. reflexivity.
Qed.

Lemma compressBound_margin (n : Z) :
  0 <= n < 2 ^ 32 -> n + 4 <= compressBound n < 2 ^ 33.
Proof.
  intros Hn. rewrite compressBound_small by assumption.
  destruct (n <? 131072) eqn:Hlt;
    Z.to_euclidean_division_equations; lia.
Qed.

(** The bound fits the [UInt32] return type up to this input size, and no
    further. *)
Lemma compressBound_fits (n : Z) :
  0 <= n <= 4278255360 -> compressBound n < 2 ^ 32.
Proof.
  intros Hn. rewrite compressBound_small by lia.
  destruct (n <? 131072) eqn:Hlt;
    Z.to_euclidean_division_equations; lia.
Qed.

Lemma compressBound_overflows (n : Z) :
  4278255360 < n < 2 ^ 32 -> 2 ^ 32 <= compressBound n.
Proof.
  intros Hn. rewrite compressBound_small by lia.
  destruct (n <? 131072) eqn:Hlt;
    Z.to_euclidean_division_equations; lia.
Qed.

Lemma isError_small (n : Z) : n < 2 ^ 33 -> isError n = false.
Proof.
  intros Hn. unfold isError, ERROR, maxCode. lia.
Qed.

Lemma decompress_magic (cap : Z) (body : bytes) :
  size body <= cap -> decompress cap (magic ++ body) = (size body, body).
Proof.
  intros H. cbn [magic app decompress].
  destruct (size body <=? cap) eqn:Hle; [reflexivity | lia].
Qed.

Lemma env_ok : EnvOk env.
Proof.
  constructor; cbn [ZSTD_compressBound ZSTD_compress2 ZSTD_isError
                    ZSTD_decompress env World].
  - intros n Hn. unfold compressBound.
    destruct (n >=? ZSTD_MAX_INPUT_SIZE); [vm_compute; discriminate|].
    pose proof (Z.shiftr_nonneg n 8).
    destruct (n <? Z.shiftl 128 10) eqn:Hlt.
    + pose proof (Z.shiftr_nonneg (Z.shiftl 128 10 - n) 11).
      change (Z.shiftl 128 10) with 131072 in *. lia.
    + lia.
  - intros w cctx cap src Hcap. unfold compress2.
    destruct (negb w && negb (software_reachable cctx)); [exact Hcap|].
    destruct (size (magic ++ src) <=? cap) eqn:Hle; cbn [snd]; [lia|exact Hcap].
  - intros w cctx src Hsw Hsrc. unfold compress2.
    rewrite Hsw, andb_false_r.
    pose proof (size_nonneg src).
    pose proof (compressBound_margin (size src) ltac:(lia)).
    assert (Hsz : size (magic ++ src) = size src + 4).
    { unfold size. rewrite length_app. cbn [magic List.length]. lia. }
    rewrite Hsz.
    destruct (size src + 4 <=? compressBound (size src)) eqn:Hle; [|lia].
    cbn [fst]. apply isError_small. lia.
  - intros w cctx cap src. unfold compress2.
    destruct (negb w && negb (software_reachable cctx));
      [intros H; discriminate H|].
    destruct (size (magic ++ src) <=? cap); [reflexivity|].
    intros H; discriminate H.
  - intros w cctx cap src Hsrc. unfold compress2.
    destruct (negb w && negb (software_reachable cctx));
      [intros H; discriminate H|].
    destruct (size (magic ++ src) <=? cap); [|intros H; discriminate H].
    intros _. cbn [snd]. exists (size src).
    split; [apply decompress_magic; lia | apply isError_small; lia].
Qed.

(** The codec [ZSTD(19)]: its bound for 1000 bytes is 1000 + 3 + 63, and a
    block of 1000 zero bytes comes back from a compress and a decompress. *)
Example ZSTD_19_scenario :
  exists c,
    registerCodecZSTD_creator (E := env) (Some [lit 19]) = inr c
    /\ getMethodByte (E := env) c = 0x90
    /\ getMaxCompressedDataSize (E := env) c 1000 = 1066
    /\ decompresses_to (E := env) c
         (doCompressData (E := env) c true (repeat x00 1000))
         (repeat x00 1000).
Proof.
  eexists. split; [reflexivity|]. split; [reflexivity|].
  split; [reflexivity|].
  exists 1004. split; vm_compute; reflexivity.
Qed.

End LibZstdFacts.

(** ** Successive calls *)

Section Calls.

Context {E : Env}.

Lemma Codec_compress_shape (c : Codec) (p : Process) (source : bytes) :
  exists w cctx',
    snd (Codec_compress c p source) = compress_result w cctx' source.
Proof.
  destruct c as [z|q]; cbn [Codec_compress].
  - exists (world p), (software_cctx z). apply doCompressData_result.
  - destruct (initialized q) eqn:Hi.
    + rewrite (QATZSTD_later_call q p source Hi). now eexists _, _.
    + rewrite (QATZSTD_first_call q p source Hi). now eexists _, _.
Qed.

Lemma QATZSTD_run_later
  (q : CompressionCodecQATZSTD) (p : Process) (blocks : list bytes) :
  initialized q = true ->
  QATZSTD_run q p blocks
  = (q, p, map (compress_result (world p) (cctx q)) blocks).
Proof.
  intros Hi. induction blocks as [|source rest IH]; cbn [QATZSTD_run map].
  - reflexivity.
  - rewrite (QATZSTD_later_call q p source Hi), IH. reflexivity.
Qed.

Lemma QATZSTD_run_first
  (q : CompressionCodecQATZSTD) (p : Process) (first : bytes)
  (more : list bytes) :
  initialized q = false ->
  QATZSTD_run q p (first :: more)
  = let after_first := QATZSTD_doCompressData q p first in
    (fst (fst after_first), snd (fst after_first),
     map (compress_result (world (snd (fst after_first)))
                          (cctx (fst (fst after_first))))
         (first :: more)).
Proof.
  intros Hi. cbn [QATZSTD_run].
  rewrite (QATZSTD_first_call q p first Hi). cbv zeta. cbn [fst snd map].
  rewrite QATZSTD_run_later by reflexivity. reflexivity.
Qed.

End Calls.

(** ** The creators on argument lists of each shape *)

Section Creators.

Context {E : Env}.

Lemma ZSTD_creator_too_many (a b c : IAST) (rest : list IAST) :
  registerCodecZSTD_creator (Some (a :: b :: c :: rest))
  = throw ("ZSTD codec must have 1 or 2 parameters, given "
           ++ toString (Z.of_nat (List.length (a :: b :: c :: rest))))%string
          ILLEGAL_SYNTAX_FOR_CODEC_TYPE.
Proof.
  unfold registerCodecZSTD_creator.
  destruct (Z.of_nat (List.length (a :: b :: c :: rest)) >? 2) eqn:Hn;
    [reflexivity|].
  rewrite Z.gtb_ltb, Z.ltb_ge in Hn.
  cbn [List.length] in Hn. lia.
Qed.

Lemma QATZSTD_creator_too_many (a b : IAST) (rest : list IAST) :
  registerCodecQATZSTD_creator (Some (a :: b :: rest))
  = throw ("QATZSTD codec must have 1 parameter, given "
           ++ toString (Z.of_nat (List.length (a :: b :: rest))))%string
          ILLEGAL_SYNTAX_FOR_CODEC_TYPE.
Proof.
  unfold registerCodecQATZSTD_creator.
  destruct (Z.of_nat (List.length (a :: b :: rest)) >? 1) eqn:Hn;
    [reflexivity|].
  rewrite Z.gtb_ltb, Z.ltb_ge in Hn.
  cbn [List.length] in Hn. lia.
Qed.

Lemma ZSTD_creator_level (v : Z) :
  registerCodecZSTD_creator (Some [lit v])
  = if to_int v >? ZSTD_maxCLevel
    then throw ("ZSTD codec can't have level more than "
                ++ toString ZSTD_maxCLevel ++ ", given "
                ++ toString (to_int v))%string
               ILLEGAL_CODEC_PARAMETER
    else inr (new_CompressionCodecZSTD_1 (to_int v)).
Proof. reflexivity. Qed.

Lemma ZSTD_creator_window (v0 v1 : Z) :
  to_int v0 <= ZSTD_maxCLevel ->
  registerCodecZSTD_creator (Some [lit v0; lit v1])
  = let bounds := ZSTD_cParam_getBounds ZSTD_c_windowLog in
    if ZSTD_isError (error bounds)
    then throw ("ZSTD windowLog parameter is not supported "
                ++ ZSTD_getErrorName (error bounds))%string
               ILLEGAL_CODEC_PARAMETER
    else if negb (to_int v1 =? 0)
            && ((to_int v1 >? upperBound bounds)
                || (to_int v1 <? lowerBound bounds))
    then throw ("ZSTD codec can't have window log more than "
                ++ toString (upperBound bounds) ++ " and lower than "
                ++ toString (lowerBound bounds)
                ++ ", given " ++ toString (to_int v1))%string
               ILLEGAL_CODEC_PARAMETER
    else inr (new_CompressionCodecZSTD_2 (to_int v0) (to_int v1)).
Proof.
  intros Hlevel. unfold registerCodecZSTD_creator, lit.
  cbn [List.length as_ASTLiteral safeGet_UInt64 bind].
  change (Z.of_nat 2 >? 2) with false. cbv iota.
  destruct (to_int v0 >? ZSTD_maxCLevel) eqn:Hgt; [lia | reflexivity].
Qed.

Lemma QATZSTD_creator_level (v : Z) :
  registerCodecQATZSTD_creator (Some [lit v])
  = if (to_int v >? QATZSTD_SUPPORTED_MAX_LEVEL)
       || (to_int v <? QATZSTD_SUPPORTED_MIN_LEVEL)
    then throw ("QATZSTD codec doesn't support level more than "
                ++ toString QATZSTD_SUPPORTED_MAX_LEVEL
                ++ " and lower than "
                ++ toString QATZSTD_SUPPORTED_MIN_LEVEL
                ++ ", given " ++ toString (to_int v))%string
               ILLEGAL_CODEC_PARAMETER
    else inr (new_CompressionCodecQATZSTD (to_int v)).
Proof. reflexivity. Qed.

End Creators.

(** * The claims *)

Section Claims.

Context {E : Env} {EO : EnvOk E}.

(** C1. Round trip.  For every codec handed out by the ZSTD or the QATZSTD
    registration for arguments it accepts, in whatever state earlier
    compress calls left it, and for every block [B] whose size and whose
    engine bound are [UInt32] values: compress returns a size [n], and
    decompressing the first [n] bytes of the destination with
    [uncompressed_size = size B] yields [B]. *)
Theorem roundtrip (c : Codec) (p : Process) (B : bytes) :
  Reachable c ->
  size B < 2 ^ 32 ->
  ZSTD_compressBound (size B) < 2 ^ 32 ->
  decompresses_to (as_ZSTD c) (snd (Codec_compress c p B)) B.
Proof.
  intros Hc Hsrc Hfit.
  destruct (Codec_compress_result c p B (Reachable_session_ok c Hc))
    as (w & cctx' & -> & Hsw & _).
  now apply compress_result_roundtrip.
Qed.

(** C2, as amended.  Whenever the engine bound of an input size fits the
    [UInt32] return type, [getMaxCompressedDataSize] returns that bound, and
    a compress call on a block of that size, on any codec, writes no more
    than [getMaxCompressedDataSize] bytes to the destination.  The function
    itself is total and its value is always a [UInt32]. *)
Theorem maxCompressedSize_bound (c : Codec) (p : Process) (B : bytes) :
  ZSTD_compressBound (size B) < 2 ^ 32 ->
  getMaxCompressedDataSize (as_ZSTD c) (size B) = ZSTD_compressBound (size B)
  /\ size (dest (snd (Codec_compress c p B)))
     <= getMaxCompressedDataSize (as_ZSTD c) (size B)
  /\ 0 <= getMaxCompressedDataSize (as_ZSTD c) (size B) < 2 ^ 32.
Proof.
  intros Hfit.
  assert (Heq : getMaxCompressedDataSize (as_ZSTD c) (size B)
                = ZSTD_compressBound (size B)).
  { unfold getMaxCompressedDataSize. apply to_UInt32_small.
    split; [apply compressBound_nonneg, size_nonneg | exact Hfit]. }
  split; [exact Heq|]. split.
  - rewrite Heq. destruct (Codec_compress_shape c p B) as (w & cctx' & ->).
    apply compress_result_dest_size.
  - apply to_UInt32_range.
Qed.

(** C3.  On a fresh QATZSTD instance, whatever status
    [QZSTD_startQatDevice] returns on the first compress call (a failure in
    particular): the first call and every later one return a size and a
    destination that decompress to the block, none throws; the first call
    records the device start, the session state and one warning carrying
    the status as a [UInt32]; the later calls record nothing; and the cached
    context has the sequence-producer fallback switched on. *)
Theorem QATZSTD_device_failure_fallback
  (level_ : Z) (p : Process) (first : bytes) (more : list bytes) :
  Forall (fun B => size B < 2 ^ 32 /\ ZSTD_compressBound (size B) < 2 ^ 32)
         (first :: more) ->
  let q := new_CompressionCodecQATZSTD level_ in
  let res := fst (QZSTD_startQatDevice (world p)) in
  let state :=
    fst (QZSTD_createSeqProdState (snd (QZSTD_startQatDevice (world p)))) in
  let after_first := QATZSTD_doCompressData q p first in
  let after_all := QATZSTD_run q p (first :: more) in
  Forall2 (fun r B => decompresses_to (base q) r B)
          (snd after_all) (first :: more)
  /\ trace (snd (fst after_first))
     = (trace p
        ++ [Call_ZSTD_createCCtx;
            Call_QZSTD_startQatDevice res;
            Call_QZSTD_createSeqProdState state;
            LOG_WARNING "CompressionCodecQATZSTD"
              "Initialization of hardware-assisted(QAT) ZSTD codec result: {} "
              (to_UInt32 res)])%list
  /\ trace (snd (fst after_all)) = trace (snd (fst after_first))
  /\ filter is_LOG_WARNING (trace (snd (fst after_all)))
     = (filter is_LOG_WARNING (trace p)
        ++ [LOG_WARNING "CompressionCodecQATZSTD"
              "Initialization of hardware-assisted(QAT) ZSTD codec result: {} "
              (to_UInt32 res)])%list
  /\ param_value ZSTD_c_enableSeqProducerFallback 0
       (cctx (fst (fst after_all))) = 1.
Proof.
  intros Hfit q res state after_first after_all.
  assert (Hi : initialized q = false) by reflexivity.
  subst after_all after_first.
  rewrite (QATZSTD_run_first q p first more Hi). cbv zeta.
  rewrite (QATZSTD_first_call q p first Hi). cbv zeta.
  cbn [fst snd cctx emit trace]. rewrite filter_app.
  repeat split.
  set (w := snd (QZSTD_createSeqProdState _)).
  set (cctx' := session_cctx _ _).
  change (Forall2 (fun r B => decompresses_to (base q) r B)
            (map (compress_result w cctx') (first :: more)) (first :: more)).
  induction Hfit as [|B rest [Hsrc HB] _ IH]; cbn [map]; constructor.
  - apply compress_result_roundtrip; [reflexivity | exact Hsrc | exact HB].
  - exact IH.
Qed.

(** C10.  The QATZSTD registration passes no method byte, the ZSTD
    registration passes the ZSTD byte, and a QATZSTD instance answers
    [getMethodByte] and [doDecompressData] with the members of its
    [CompressionCodecZSTD] subobject: the same byte as any ZSTD codec and
    the same decompression.  So a block compressed by a QATZSTD instance is
    decompressed to the original by any plain ZSTD codec. *)
Theorem QATZSTD_tagged_as_ZSTD
  (q : CompressionCodecQATZSTD) (z : CompressionCodecZSTD)
  (p : Process) (B : bytes) :
  Reachable (Codec_QATZSTD q) ->
  size B < 2 ^ 32 ->
  ZSTD_compressBound (size B) < 2 ^ 32 ->
  byte_code registerCodecQATZSTD = None
  /\ byte_code registerCodecZSTD = Some (getMethodByte z)
  /\ getMethodByte (as_ZSTD (Codec_QATZSTD q)) = getMethodByte z
  /\ getMethodByte z = to_UInt8 CompressionMethodByte_ZSTD
  /\ (forall source n,
        doDecompressData (as_ZSTD (Codec_QATZSTD q)) source n
        = doDecompressData z source n)
  /\ decompresses_to z (snd (Codec_compress (Codec_QATZSTD q) p B)) B.
Proof.
  intros Hq Hsrc Hfit. repeat (split; [reflexivity|]).
  destruct (Codec_compress_result _ p B (Reachable_session_ok _ Hq))
    as (w & cctx' & -> & Hsw & _).
  now apply compress_result_roundtrip.
Qed.

End Claims.

Section Validation.

Context {E : Env}.

(** C4, as amended.  ZSTD checks the level against the maximum the engine
    reports: for every engine, level [ZSTD_maxCLevel] is accepted and level
    [ZSTD_maxCLevel + 1] is rejected with [ILLEGAL_CODEC_PARAMETER].
    QATZSTD checks it against its own fixed range 1..12: 12 is accepted,
    13 and 0 are rejected with [ILLEGAL_CODEC_PARAMETER], and a level is
    accepted exactly when it lies in that range. *)
Theorem level_validation (v : Z) :
  0 <= ZSTD_maxCLevel < 2 ^ 31 - 1 ->
  registerCodecZSTD_creator (Some [lit ZSTD_maxCLevel])
  = inr (new_CompressionCodecZSTD_1 ZSTD_maxCLevel)
  /\ registerCodecZSTD_creator (Some [lit (ZSTD_maxCLevel + 1)])
     = throw ("ZSTD codec can't have level more than "
              ++ toString ZSTD_maxCLevel ++ ", given "
              ++ toString (ZSTD_maxCLevel + 1))%string
             ILLEGAL_CODEC_PARAMETER
  /\ registerCodecQATZSTD_creator (Some [lit 12])
     = inr (new_CompressionCodecQATZSTD 12)
  /\ error_code (registerCodecQATZSTD_creator (Some [lit 13]))
     = Some ILLEGAL_CODEC_PARAMETER
  /\ error_code (registerCodecQATZSTD_creator (Some [lit 0]))
     = Some ILLEGAL_CODEC_PARAMETER
  /\ (error_code (registerCodecQATZSTD_creator (Some [lit v])) = None
      <-> 1 <= to_int v <= 12).
Proof.
  intros Hmax. rewrite !ZSTD_creator_level.
  rewrite !to_int_small by lia.
  destruct (ZSTD_maxCLevel >? ZSTD_maxCLevel) eqn:H1; [lia|].
  destruct (ZSTD_maxCLevel + 1 >? ZSTD_maxCLevel) eqn:H2; [|lia].
  repeat (split; [reflexivity|]).
  rewrite QATZSTD_creator_level.
  unfold QATZSTD_SUPPORTED_MAX_LEVEL, QATZSTD_SUPPORTED_MIN_LEVEL.
  destruct (to_int v >? 12) eqn:Hhi; destruct (to_int v <? 1) eqn:Hlo;
    cbn [orb error_code throw code]; split; intros H;
    try discriminate H; try reflexivity; lia.
Qed.

(** C5, as amended.  When the level argument passed its check and the
    engine's bounds query reports no error, the window-log check acts on
    the argument truncated to [int]: 0 is accepted whatever the bounds, a
    nonzero value inside the reported bounds is accepted, and a nonzero
    value outside them is rejected with [ILLEGAL_CODEC_PARAMETER]. *)
Theorem window_log_validation (v0 v1 : Z) :
  to_int v0 <= ZSTD_maxCLevel ->
  ZSTD_isError (error (ZSTD_cParam_getBounds ZSTD_c_windowLog)) = false ->
  let window_log := to_int v1 in
  let bounds := ZSTD_cParam_getBounds ZSTD_c_windowLog in
  let result := registerCodecZSTD_creator (Some [lit v0; lit v1]) in
  (window_log = 0 ->
   result = inr (new_CompressionCodecZSTD_2 (to_int v0) 0))
  /\ (window_log <> 0 ->
      lowerBound bounds <= window_log <= upperBound bounds ->
      result = inr (new_CompressionCodecZSTD_2 (to_int v0) window_log))
  /\ (window_log <> 0 ->
      window_log > upperBound bounds \/ window_log < lowerBound bounds ->
      error_code result = Some ILLEGAL_CODEC_PARAMETER).
Proof.
  intros Hlevel Hbounds window_log bounds result. subst result.
  rewrite (ZSTD_creator_window v0 v1 Hlevel). cbv zeta.
  rewrite Hbounds. fold bounds. fold window_log.
  destruct (window_log =? 0) eqn:Hz;
    destruct (window_log >? upperBound bounds) eqn:Hhi;
    destruct (window_log <? lowerBound bounds) eqn:Hlo;
    cbn [negb andb orb error_code throw code];
    repeat split; intros; try reflexivity; try lia;
    replace window_log with 0 by lia; reflexivity.
Qed.

(** C6, as amended.  More arguments than a codec takes (ZSTD: three or
    more, QATZSTD: two or more) are rejected with
    [ILLEGAL_SYNTAX_FOR_CODEC_TYPE] whatever the arguments are.  An argument
    that is not a literal is rejected with [ILLEGAL_CODEC_PARAMETER]: the
    first argument before any range check, ZSTD's second argument after the
    level passed its range check.  No argument list, or an empty one, gives
    an instance of the default level 1. *)
Theorem argument_validation
  (a b c : IAST) (rest : list IAST) (v : Z) :
  registerCodecZSTD_creator (Some (a :: b :: c :: rest))
  = throw ("ZSTD codec must have 1 or 2 parameters, given "
           ++ toString (Z.of_nat (List.length (a :: b :: c :: rest))))%string
          ILLEGAL_SYNTAX_FOR_CODEC_TYPE
  /\ registerCodecQATZSTD_creator (Some (a :: b :: rest))
     = throw ("QATZSTD codec must have 1 parameter, given "
              ++ toString (Z.of_nat (List.length (a :: b :: rest))))%string
             ILLEGAL_SYNTAX_FOR_CODEC_TYPE
  /\ registerCodecZSTD_creator (Some [ASTOther])
     = throw "ZSTD codec argument must be integer" ILLEGAL_CODEC_PARAMETER
  /\ registerCodecZSTD_creator (Some [ASTOther; b])
     = throw "ZSTD codec argument must be integer" ILLEGAL_CODEC_PARAMETER
  /\ registerCodecQATZSTD_creator (Some [ASTOther])
     = throw "QATZSTD codec argument must be integer" ILLEGAL_CODEC_PARAMETER
  /\ registerCodecZSTD_creator (Some [lit v; ASTOther])
     = (if to_int v >? ZSTD_maxCLevel
        then throw ("ZSTD codec can't have level more than "
                    ++ toString ZSTD_maxCLevel ++ ", given "
                    ++ toString (to_int v))%string
                   ILLEGAL_CODEC_PARAMETER
        else throw "ZSTD codec second argument must be integer"
                   ILLEGAL_CODEC_PARAMETER)
  /\ registerCodecZSTD_creator None
     = inr (new_CompressionCodecZSTD_1 ZSTD_DEFAULT_LEVEL)
  /\ registerCodecZSTD_creator (Some [])
     = inr (new_CompressionCodecZSTD_1 ZSTD_DEFAULT_LEVEL)
  /\ registerCodecQATZSTD_creator None
     = inr (new_CompressionCodecQATZSTD ZSTD_DEFAULT_LEVEL)
  /\ registerCodecQATZSTD_creator (Some [])
     = inr (new_CompressionCodecQATZSTD ZSTD_DEFAULT_LEVEL)
  /\ level (new_CompressionCodecZSTD_1 ZSTD_DEFAULT_LEVEL) = 1
  /\ qat_level (new_CompressionCodecQATZSTD ZSTD_DEFAULT_LEVEL) = 1.
Proof.
  split; [apply ZSTD_creator_too_many|].
  split; [apply QATZSTD_creator_too_many|].
  repeat (split; [reflexivity|]). reflexivity.
Qed.

(** C8.  Destroying a QATZSTD instance on which no compress call was made
    changes nothing: no call is recorded and the world is untouched.  After
    one or more compress calls the instance is initialised, holds the
    session state and context of its first call, and destroying it records
    [QZSTD_freeSeqProdState] on that state followed by [ZSTD_freeCCtx] on
    that context, and nothing else. *)
Theorem QATZSTD_teardown
  (level_ : Z) (p : Process) (first : bytes) (more : list bytes) :
  let q := new_CompressionCodecQATZSTD level_ in
  let state :=
    fst (QZSTD_createSeqProdState (snd (QZSTD_startQatDevice (world p)))) in
  let used := fst (fst (QATZSTD_run q p (first :: more))) in
  let p' := snd (fst (QATZSTD_run q p (first :: more))) in
  QATZSTD_destroy q p = p
  /\ initialized used = true
  /\ sequenceProducerState used = state
  /\ cctx used = session_cctx state level_
  /\ trace (QATZSTD_destroy used p')
     = (trace p'
        ++ [Call_QZSTD_freeSeqProdState state;
            Call_ZSTD_freeCCtx (session_cctx state level_)])%list.
Proof.
  intros q state used p'. subst used p'.
  assert (Hi : initialized q = false) by reflexivity.
  rewrite (QATZSTD_run_first q p first more Hi). cbv zeta.
  rewrite (QATZSTD_first_call q p first Hi). cbv zeta.
  cbn [fst snd]. repeat split.
Qed.

(** C9.  Each creator reads its argument as a [UInt64] and narrows it to
    [int] before any check: two argument values that agree modulo 2^32 give
    the same result, error or codec, in the level position of ZSTD, in its
    window-log position, and in the level position of QATZSTD; and the
    parameters of the codec built are the narrowed values. *)
Theorem arguments_truncated_to_int
  (v1 v2 : Z) (first : IAST) (rest : list IAST) :
  to_UInt32 v1 = to_UInt32 v2 ->
  registerCodecZSTD_creator (Some (lit v1 :: rest))
  = registerCodecZSTD_creator (Some (lit v2 :: rest))
  /\ registerCodecZSTD_creator (Some [first; lit v1])
     = registerCodecZSTD_creator (Some [first; lit v2])
  /\ registerCodecQATZSTD_creator (Some (lit v1 :: rest))
     = registerCodecQATZSTD_creator (Some (lit v2 :: rest))
  /\ (forall c, registerCodecZSTD_creator (Some [lit v1]) = inr c ->
                level c = to_int v1)
  /\ (forall v0 c, registerCodecZSTD_creator (Some [lit v0; lit v1]) = inr c ->
                   level c = to_int v0 /\ window_log c = to_int v1)
  /\ (forall q, registerCodecQATZSTD_creator (Some [lit v1]) = inr q ->
                qat_level q = to_int v1 /\ level (base q) = to_int v1).
Proof.
  intros Hmod. pose proof (to_int_congr v1 v2 Hmod) as Hint.
  split; [|split; [|split; [|split; [|split]]]].
  - unfold registerCodecZSTD_creator, lit.
    cbn [as_ASTLiteral safeGet_UInt64 bind List.length].
    rewrite Hint. reflexivity.
  - unfold registerCodecZSTD_creator, lit.
    cbn [as_ASTLiteral safeGet_UInt64 bind List.length].
    rewrite Hint. reflexivity.
  - unfold registerCodecQATZSTD_creator, lit.
    cbn [as_ASTLiteral safeGet_UInt64 bind List.length].
    rewrite Hint. reflexivity.
  - intros c. rewrite ZSTD_creator_level.
    destruct (to_int v1 >? ZSTD_maxCLevel); [discriminate|].
    intros H. inversion H. reflexivity.
  - intros v0 c. unfold registerCodecZSTD_creator, lit.
    cbn [as_ASTLiteral safeGet_UInt64 bind List.length].
    change (Z.of_nat 2 >? 2) with false. cbv iota.
    destruct (to_int v0 >? ZSTD_maxCLevel); [discriminate|].
    destruct (ZSTD_isError _); [discriminate|].
    destruct (negb _ && _); [discriminate|].
    intros H. inversion H. split; reflexivity.
  - intros q. rewrite QATZSTD_creator_level.
    destruct (_ || _); [discriminate|].
    intros H. inversion H. split; reflexivity.
Qed.

End Validation.

(** C7, as amended.  When the level argument passed its check and the
    engine [E] reports an error for the window-log bounds query,
    construction fails with [ILLEGAL_CODEC_PARAMETER] and a message that
    names the engine's error, whatever the window-log argument is.  That
    code is the one a window log outside the reported bounds is rejected
    with, on any engine [E'] that does report bounds. *)
Theorem windowLog_bounds_error (E E' : Env) (v0 v1 v0' v1' : Z) :
  to_int v0 <= ZSTD_maxCLevel (Env := E) ->
  ZSTD_isError (Env := E)
    (error (ZSTD_cParam_getBounds (Env := E) ZSTD_c_windowLog)) = true ->
  to_int v0' <= ZSTD_maxCLevel (Env := E') ->
  ZSTD_isError (Env := E')
    (error (ZSTD_cParam_getBounds (Env := E') ZSTD_c_windowLog)) = false ->
  to_int v1' <> 0 ->
  to_int v1'
  > upperBound (ZSTD_cParam_getBounds (Env := E') ZSTD_c_windowLog)
  \/ to_int v1'
     < lowerBound (ZSTD_cParam_getBounds (Env := E') ZSTD_c_windowLog) ->
  registerCodecZSTD_creator (E := E) (Some [lit v0; lit v1])
  = throw ("ZSTD windowLog parameter is not supported "
           ++ ZSTD_getErrorName (Env := E)
                (error (ZSTD_cParam_getBounds (Env := E) ZSTD_c_windowLog)))%string
          ILLEGAL_CODEC_PARAMETER
  /\ error_code (registerCodecZSTD_creator (E := E) (Some [lit v0; lit v1]))
     = error_code
         (registerCodecZSTD_creator (E := E') (Some [lit v0'; lit v1'])).
Proof.
  intros Hlevel Hbounds Hlevel' Hbounds' Hnz Hout.
  rewrite (ZSTD_creator_window (E := E) v0 v1 Hlevel). cbv zeta.
  rewrite Hbounds. split; [reflexivity|].
  rewrite (ZSTD_creator_window (E := E') v0' v1' Hlevel'). cbv zeta.
  rewrite Hbounds'.
  destruct (to_int v1' =? 0) eqn:Hz; [lia|].
  set (bounds := ZSTD_cParam_getBounds (Env := E') ZSTD_c_windowLog) in *.
  destruct (to_int v1' >? upperBound bounds) eqn:Hhi;
    destruct (to_int v1' <? lowerBound bounds) eqn:Hlo;
    try reflexivity; lia.
Qed.

(** C1, at the QATZSTD codec of level 3 on a host without a QAT device. *)
Lemma roundtrip_witness :
  decompresses_to (E := LibZstd.env)
    (as_ZSTD (Codec_QATZSTD (new_CompressionCodecQATZSTD 3)))
    (snd (Codec_compress (Codec_QATZSTD (new_CompressionCodecQATZSTD 3))
            (LibZstd.host false) [x00; x01; x02]))
    [x00; x01; x02].
Proof.
  apply (roundtrip (EO := LibZstdFacts.env_ok)
           (Codec_QATZSTD (new_CompressionCodecQATZSTD 3))
           (LibZstd.host false) [x00; x01; x02]).
  - apply (Reachable_created registerCodecQATZSTD (Some [lit 3])).
    + right. left. reflexivity.
    + reflexivity.
  - reflexivity.
  - reflexivity.
Defined.

(** C2, on a three-byte block and the ZSTD codec of level 19. *)
Lemma maxCompressedSize_bound_witness :
  getMaxCompressedDataSize (E := LibZstd.env)
    (new_CompressionCodecZSTD_1 19) 3 = 66
  /\ size (dest (snd (Codec_compress
                        (Codec_ZSTD (new_CompressionCodecZSTD_1 19))
                        (LibZstd.host true) [x00; x00; x00])))
     <= 66.
Proof.
  pose proof (maxCompressedSize_bound (EO := LibZstdFacts.env_ok)
                (Codec_ZSTD (new_CompressionCodecZSTD_1 19))
                (LibZstd.host true) [x00; x00; x00] eq_refl)
    as (H1 & H2 & _).
  split; [exact H1 | exact H2].
Defined.

(** C2 as stated fails at the largest [UInt32]: libzstd's bound for
    4294967295 bytes is 4311744510, and the function returns 16777214. *)
Lemma maxCompressedSize_wraps :
  ZSTD_compressBound (Env := LibZstd.env) 4294967295 = 4311744510
  /\ getMaxCompressedDataSize (E := LibZstd.env)
       (getCompressionCodecZSTD 1) 4294967295 = 16777214
  /\ getMaxCompressedDataSize (E := LibZstd.env)
       (getCompressionCodecZSTD 1) 4294967295
     <> ZSTD_compressBound (Env := LibZstd.env) 4294967295.
Proof.
  split; [reflexivity|]. split; [reflexivity|]. discriminate.
Qed.

(** C3, on a host without a QAT device: the start status is -1, logged as
    4294967295, and three blocks round-trip. *)
Lemma QATZSTD_device_failure_fallback_witness :
  let q := new_CompressionCodecQATZSTD 3 in
  let blocks := [[x00; x01]; [x02]; []] in
  let after_all := QATZSTD_run (E := LibZstd.env) q (LibZstd.host false) blocks in
  fst (QZSTD_startQatDevice (Env := LibZstd.env) false) = -1
  /\ Forall2 (fun r B => decompresses_to (E := LibZstd.env) (base q) r B)
             (snd after_all) blocks
  /\ trace (snd (fst after_all))
     = [Call_ZSTD_createCCtx;
        Call_QZSTD_startQatDevice (-1);
        Call_QZSTD_createSeqProdState 1;
        LOG_WARNING "CompressionCodecQATZSTD"
          "Initialization of hardware-assisted(QAT) ZSTD codec result: {} "
          4294967295].
Proof.
  intros q blocks after_all.
  pose proof (QATZSTD_device_failure_fallback (EO := LibZstdFacts.env_ok)
                3 (LibZstd.host false) [x00; x01] [[x02]; []])
    as H.
  cbv zeta in H.
  destruct H as (H1 & H2 & H3 & _).
  - repeat constructor.
  - split; [reflexivity|]. split; [exact H1|].
    exact (eq_trans H3 H2).
Defined.

(** C4, with libzstd's maximum level 22. *)
Lemma level_validation_witness :
  registerCodecZSTD_creator (E := LibZstd.env) (Some [lit 22])
  = inr (new_CompressionCodecZSTD_1 22)
  /\ registerCodecZSTD_creator (E := LibZstd.env) (Some [lit 23])
     = throw "ZSTD codec can't have level more than 22, given 23"
             ILLEGAL_CODEC_PARAMETER
  /\ registerCodecQATZSTD_creator (Some [lit 12])
     = inr (new_CompressionCodecQATZSTD 12).
Proof.
  pose proof (level_validation (E := LibZstd.env) 5) as H.
  destruct H as (H1 & H2 & H3 & _).
  - cbn. lia.
  - split; [exact H1|]. split; [exact H2 | exact H3].
Defined.

(** C4 as stated fails for QATZSTD: its limit is the constant 12, not the
    maximum the engine reports, so the engine's maximum level 22 is
    rejected, as is every level from 13 on. *)
Lemma QATZSTD_level_limit_is_fixed :
  ZSTD_maxCLevel (Env := LibZstd.env) = 22
  /\ registerCodecQATZSTD_creator
       (Some [lit (ZSTD_maxCLevel (Env := LibZstd.env))])
     = throw "QATZSTD codec doesn't support level more than 12 and lower than 1, given 22"
             ILLEGAL_CODEC_PARAMETER
  /\ error_code (registerCodecQATZSTD_creator (Some [lit 13]))
     = Some ILLEGAL_CODEC_PARAMETER.
Proof. repeat split. Qed.

(** C5, at level 3 with libzstd's window-log bounds 10..31. *)
Lemma window_log_validation_witness :
  registerCodecZSTD_creator (E := LibZstd.env) (Some [lit 3; lit 0])
  = inr (new_CompressionCodecZSTD_2 3 0)
  /\ registerCodecZSTD_creator (E := LibZstd.env) (Some [lit 3; lit 20])
     = inr (new_CompressionCodecZSTD_2 3 20)
  /\ error_code
       (registerCodecZSTD_creator (E := LibZstd.env) (Some [lit 3; lit 99]))
     = Some ILLEGAL_CODEC_PARAMETER.
Proof.
  assert (Hlevel : to_int 3 <= ZSTD_maxCLevel (Env := LibZstd.env))
    by (cbn; lia).
  split; [|split].
  - exact (proj1 (window_log_validation (E := LibZstd.env) 3 0
                    Hlevel eq_refl) eq_refl).
  - apply (proj1 (proj2 (window_log_validation (E := LibZstd.env) 3 20
                           Hlevel eq_refl))).
    + discriminate.
    + cbn. lia.
  - apply (proj2 (proj2 (window_log_validation (E := LibZstd.env) 3 99
                           Hlevel eq_refl))).
    + discriminate.
    + left. cbn. lia.
Defined.

(** C5 as stated fails twice.  The argument 4294967296 is nonzero and above
    the upper bound 31, yet it is accepted: it narrows to 0.  And when the
    bounds query reports an error, the argument 0 is rejected. *)
Lemma window_log_counterexample :
  upperBound (ZSTD_cParam_getBounds (Env := LibZstd.env) ZSTD_c_windowLog)
  < 4294967296
  /\ registerCodecZSTD_creator (E := LibZstd.env)
       (Some [lit 1; lit 4294967296])
     = inr (new_CompressionCodecZSTD_2 1 0)
  /\ registerCodecZSTD_creator (E := LibZstd.env_without_windowLog)
       (Some [lit 1; lit 0])
     = throw "ZSTD windowLog parameter is not supported Unsupported parameter"
             ILLEGAL_CODEC_PARAMETER.
Proof. repeat split. Qed.

(** C6 as stated fails: an argument that is not a literal is rejected with
    [ILLEGAL_CODEC_PARAMETER], the code of the range checks, not with the
    [ILLEGAL_SYNTAX_FOR_CODEC_TYPE] of a wrong argument count; and for
    ZSTD's second argument the rejection comes after the level's range
    check, whose error is the one reported here. *)
Lemma non_literal_argument_counterexample :
  error_code (registerCodecZSTD_creator (E := LibZstd.env) (Some [ASTOther]))
  <> Some ILLEGAL_SYNTAX_FOR_CODEC_TYPE
  /\ error_code (registerCodecQATZSTD_creator (Some [ASTOther]))
     <> Some ILLEGAL_SYNTAX_FOR_CODEC_TYPE
  /\ error_code (registerCodecZSTD_creator (E := LibZstd.env)
                   (Some [lit 1; lit 2; lit 3]))
     = Some ILLEGAL_SYNTAX_FOR_CODEC_TYPE
  /\ registerCodecZSTD_creator (E := LibZstd.env) (Some [lit 23; ASTOther])
     = throw "ZSTD codec can't have level more than 22, given 23"
             ILLEGAL_CODEC_PARAMETER.
Proof.
  split; [discriminate|]. split; [discriminate|]. split; reflexivity.
Qed.

(** C7, with the engine that does not support the window-log parameter,
    against the window log 99 on the engine that does. *)
Lemma windowLog_bounds_error_witness :
  registerCodecZSTD_creator (E := LibZstd.env_without_windowLog)
    (Some [lit 1; lit 20])
  = throw "ZSTD windowLog parameter is not supported Unsupported parameter"
          ILLEGAL_CODEC_PARAMETER
  /\ error_code (registerCodecZSTD_creator
                   (E := LibZstd.env_without_windowLog)
                   (Some [lit 1; lit 20]))
     = error_code (registerCodecZSTD_creator (E := LibZstd.env)
                     (Some [lit 1; lit 99])).
Proof.
  apply (windowLog_bounds_error LibZstd.env_without_windowLog LibZstd.env
           1 20 1 99).
  - cbn. lia.
  - reflexivity.
  - cbn. lia.
  - reflexivity.
  - discriminate.
  - left. cbn. lia.
Defined.

(** C7 as stated fails: the error for an unsupported window-log parameter
    and the error for a window log outside the reported bounds carry the
    same code. *)
Lemma unsupported_windowLog_same_error_code :
  error_code (registerCodecZSTD_creator (E := LibZstd.env_without_windowLog)
                (Some [lit 1; lit 20]))
  = Some ILLEGAL_CODEC_PARAMETER
  /\ error_code (registerCodecZSTD_creator (E := LibZstd.env)
                   (Some [lit 1; lit 99]))
     = Some ILLEGAL_CODEC_PARAMETER
  /\ error_code (registerCodecZSTD_creator
                   (E := LibZstd.env_without_windowLog)
                   (Some [lit 1; lit 20]))
     = error_code (registerCodecZSTD_creator (E := LibZstd.env)
                     (Some [lit 1; lit 99])).
Proof. repeat split. Qed.

(** C9, at the level arguments 5 and 2^32 + 5. *)
Lemma arguments_truncated_to_int_witness :
  registerCodecZSTD_creator (E := LibZstd.env) (Some [lit 5])
  = registerCodecZSTD_creator (E := LibZstd.env) (Some [lit 4294967301])
  /\ registerCodecZSTD_creator (E := LibZstd.env) (Some [lit 3; lit 5])
     = registerCodecZSTD_creator (E := LibZstd.env)
         (Some [lit 3; lit 4294967301])
  /\ registerCodecQATZSTD_creator (Some [lit 5])
     = registerCodecQATZSTD_creator (Some [lit 4294967301]).
Proof.
  pose proof (arguments_truncated_to_int (E := LibZstd.env)
                5 4294967301 (lit 3) [] eq_refl)
    as (H1 & H2 & H3 & _).
  split; [exact H1|]. split; [exact H2 | exact H3].
Defined.

(** C10, at a QATZSTD codec of level 3 and the plain ZSTD codec of
    level 1. *)
Lemma QATZSTD_tagged_as_ZSTD_witness :
  getMethodByte (E := LibZstd.env)
    (as_ZSTD (Codec_QATZSTD (new_CompressionCodecQATZSTD 3)))
  = getMethodByte (E := LibZstd.env) (getCompressionCodecZSTD 1)
  /\ decompresses_to (E := LibZstd.env) (getCompressionCodecZSTD 1)
       (snd (Codec_compress (Codec_QATZSTD (new_CompressionCodecQATZSTD 3))
               (LibZstd.host false) [x00; x01; x02]))
       [x00; x01; x02].
Proof.
  pose proof (QATZSTD_tagged_as_ZSTD (EO := LibZstdFacts.env_ok)
                (new_CompressionCodecQATZSTD 3) (getCompressionCodecZSTD 1)
                (LibZstd.host false) [x00; x01; x02])
    as H.
  destruct H as (_ & _ & H3 & _ & _ & H6).
  - apply (Reachable_created registerCodecQATZSTD (Some [lit 3])).
    + right. left. reflexivity.
    + reflexivity.
  - reflexivity.
  - reflexivity.
  - split; [exact H3 | exact H6].
Defined.

(** * Further properties of the codecs *)

(** ** What an accepted argument list looks like *)

Section Accepted.

Context {E : Env}.

Lemma to_int_to_UInt64 (x : Z) :
  - 2 ^ 31 <= x < 2 ^ 31 -> to_int (to_UInt64 x) = x.
Proof.
  intros Hx. rewrite (to_int_congr (to_UInt64 x) x).
  - now apply to_int_small.
  - unfold to_UInt32, to_UInt64.
    Z.to_euclidean_division_equations; lia.
Qed.

Lemma to_UInt64_negative (x : Z) :
  - 2 ^ 31 <= x < 0 -> to_UInt64 x = 2 ^ 64 + x.
Proof.
  intros Hx. unfold to_UInt64.
  Z.to_euclidean_division_equations; lia.
Qed.

Lemma ZSTD_creator_level_first (v : Z) (second : IAST) :
  to_int v > ZSTD_maxCLevel ->
  registerCodecZSTD_creator (Some [lit v; second])
  = registerCodecZSTD_creator (Some [lit v]).
Proof.
  intros Hv. unfold registerCodecZSTD_creator, lit.
  cbn [List.length as_ASTLiteral safeGet_UInt64 bind].
  change (Z.of_nat 2 >? 2) with false. change (Z.of_nat 1 >? 2) with false.
  cbv iota.
  destruct (to_int v >? ZSTD_maxCLevel) eqn:Hgt; [reflexivity | lia].
Qed.

(** The three shapes of an accepted ZSTD argument list. *)
Lemma ZSTD_creator_inversion (arguments : ASTPtr) (c : CompressionCodecZSTD) :
  registerCodecZSTD_creator arguments = inr c ->
  ((arguments = None \/ arguments = Some [])
   /\ c = new_CompressionCodecZSTD_1 ZSTD_DEFAULT_LEVEL)
  \/ (exists v,
        arguments = Some [lit v]
        /\ to_int v <= ZSTD_maxCLevel
        /\ c = new_CompressionCodecZSTD_1 (to_int v))
  \/ (exists v0 v1,
        arguments = Some [lit v0; lit v1]
        /\ to_int v0 <= ZSTD_maxCLevel
        /\ ZSTD_isError (error (ZSTD_cParam_getBounds ZSTD_c_windowLog))
           = false
        /\ (to_int v1 = 0
            \/ lowerBound (ZSTD_cParam_getBounds ZSTD_c_windowLog)
               <= to_int v1
               <= upperBound (ZSTD_cParam_getBounds ZSTD_c_windowLog))
        /\ c = new_CompressionCodecZSTD_2 (to_int v0) (to_int v1)).
Proof.
  destruct arguments as [[|a [|b [|c' rest]]]|].
  - intros H. inversion H. left. split; [now right | reflexivity].
  - destruct a as [[v|]|]; try (intros H; discriminate H).
    change (ASTLiteral (Field_UInt64 v)) with (lit v).
    rewrite ZSTD_creator_level.
    destruct (to_int v >? ZSTD_maxCLevel) eqn:Hgt; [discriminate|].
    intros H. inversion H. right. left. exists v.
    repeat split. lia.
  - destruct a as [[v0|]|]; try (intros H; discriminate H).
    change (ASTLiteral (Field_UInt64 v0)) with (lit v0).
    destruct (to_int v0 >? ZSTD_maxCLevel) eqn:Hgt.
    + rewrite ZSTD_creator_level_first by lia.
      rewrite ZSTD_creator_level, Hgt. discriminate.
    + assert (Hlevel : to_int v0 <= ZSTD_maxCLevel) by lia.
      destruct b as [[v1|]|].
      * change (ASTLiteral (Field_UInt64 v1)) with (lit v1).
        rewrite (ZSTD_creator_window v0 v1 Hlevel). cbv zeta.
        destruct (ZSTD_isError _) eqn:Herr; [discriminate|].
        destruct (to_int v1 =? 0) eqn:Hz;
          destruct (to_int v1 >? upperBound _) eqn:Hhi;
          destruct (to_int v1 <? lowerBound _) eqn:Hlo;
          cbn [negb andb orb]; try discriminate;
          intros H; inversion H; right; right; exists v0, v1;
          repeat split; try assumption; lia.
      * unfold registerCodecZSTD_creator, lit.
        cbn [List.length as_ASTLiteral safeGet_UInt64 bind].
        change (Z.of_nat 2 >? 2) with false. cbv iota. rewrite Hgt.
        discriminate.
      * unfold registerCodecZSTD_creator, lit.
        cbn [List.length as_ASTLiteral safeGet_UInt64 bind].
        change (Z.of_nat 2 >? 2) with false. cbv iota. rewrite Hgt.
        discriminate.
  - rewrite ZSTD_creator_too_many. discriminate.
  - intros H. inversion H. left. split; [now left | reflexivity].
Qed.

End Accepted.

(** ** Construction *)

Section Construction.

Context {E : Env}.

(** X2.  The description of a ZSTD codec reproduces it: when the default
    level is one the engine supports, handing the arguments recorded in the
    description of an accepted codec back to the creator yields the same
    codec, and the description carries the name the codec is registered
    under. *)
Theorem ZSTD_description_roundtrip
  (arguments : ASTPtr) (c : CompressionCodecZSTD) :
  ZSTD_DEFAULT_LEVEL <= ZSTD_maxCLevel ->
  registerCodecZSTD_creator arguments = inr c ->
  registerCodecZSTD_creator (Some (map lit (desc_args (codec_desc c))))
  = inr c
  /\ desc_name (codec_desc c) = family_name registerCodecZSTD.
Proof.
  intros Hdefault Hc. split.
  - destruct (ZSTD_creator_inversion arguments c Hc)
      as [[_ ->] | [(v & _ & Hv & ->) | (v0 & v1 & _ & Hv0 & Herr & Hv1 & ->)]].
    + cbn [new_CompressionCodecZSTD_1 codec_desc desc_args map].
      rewrite ZSTD_creator_level.
      change (to_int (to_UInt64 ZSTD_DEFAULT_LEVEL)) with ZSTD_DEFAULT_LEVEL.
      destruct (ZSTD_DEFAULT_LEVEL >? ZSTD_maxCLevel) eqn:Hgt;
        [lia | reflexivity].
    + cbn [new_CompressionCodecZSTD_1 codec_desc desc_args map].
      rewrite ZSTD_creator_level.
      rewrite to_int_to_UInt64 by apply to_int_range.
      destruct (to_int v >? ZSTD_maxCLevel) eqn:Hgt; [lia | reflexivity].
    + cbn [new_CompressionCodecZSTD_2 codec_desc desc_args map].
      rewrite ZSTD_creator_window
        by (rewrite to_int_to_UInt64 by apply to_int_range; exact Hv0).
      cbv zeta. rewrite !to_int_to_UInt64 by apply to_int_range.
      rewrite Herr.
      destruct (to_int v1 =? 0) eqn:Hz;
        destruct (to_int v1 >? upperBound _) eqn:Hhi;
        destruct (to_int v1 <? lowerBound _) eqn:Hlo;
        cbn [negb andb orb]; try reflexivity; lia.
  - destruct (ZSTD_creator_inversion arguments c Hc)
      as [[_ ->] | [(v & _ & _ & ->) | (v0 & v1 & _ & _ & _ & _ & ->)]];
      reflexivity.
Qed.

(** X3.  The description of a QATZSTD codec reproduces it: handing the
    argument recorded in the description of an accepted codec back to the
    creator yields the same, uninitialised, codec, and the description
    carries the name QATZSTD, not the name of the base class. *)
Theorem QATZSTD_description_roundtrip
  (arguments : ASTPtr) (q : CompressionCodecQATZSTD) :
  registerCodecQATZSTD_creator arguments = inr q ->
  registerCodecQATZSTD_creator
    (Some (map lit (desc_args (codec_desc (base q)))))
  = inr q
  /\ desc_name (codec_desc (base q)) = family_name registerCodecQATZSTD
  /\ desc_name (codec_desc (base q)) <> family_name registerCodecZSTD.
Proof.
  intros Hq. destruct (QATZSTD_creator_new arguments q Hq) as (l & -> & Hl).
  unfold QATZSTD_SUPPORTED_MIN_LEVEL, QATZSTD_SUPPORTED_MAX_LEVEL in Hl.
  split; [|split; [reflexivity | discriminate]].
  cbn [new_CompressionCodecQATZSTD base setCodecDescription codec_desc
       desc_args map].
  rewrite QATZSTD_creator_level.
  rewrite to_int_to_UInt64 by lia.
  unfold QATZSTD_SUPPORTED_MIN_LEVEL, QATZSTD_SUPPORTED_MAX_LEVEL.
  destruct (l >? 12) eqn:Hhi; destruct (l <? 1) eqn:Hlo;
    cbn [orb]; try reflexivity; lia.
Qed.

(** X4.  No ZSTD codec exists outside the bounds checked at construction:
    when the default level is one the engine supports, every accepted
    codec has an [int] level not above the engine's maximum; without
    long-range matching its window log is 0; with it the engine reported
    window-log bounds and the window log is 0 or inside them.  There is no
    lower check on the level. *)
Theorem ZSTD_parameters_within_bounds
  (arguments : ASTPtr) (c : CompressionCodecZSTD) :
  ZSTD_DEFAULT_LEVEL <= ZSTD_maxCLevel ->
  registerCodecZSTD_creator arguments = inr c ->
  - 2 ^ 31 <= level c <= ZSTD_maxCLevel
  /\ (if enable_long_range c
      then ZSTD_isError (error (ZSTD_cParam_getBounds ZSTD_c_windowLog))
           = false
           /\ (window_log c = 0
               \/ lowerBound (ZSTD_cParam_getBounds ZSTD_c_windowLog)
                  <= window_log c
                  <= upperBound (ZSTD_cParam_getBounds ZSTD_c_windowLog))
      else window_log c = 0).
Proof.
  intros Hdefault Hc.
  destruct (ZSTD_creator_inversion arguments c Hc)
    as [[_ ->] | [(v & _ & Hv & ->) | (v0 & v1 & _ & Hv0 & Herr & Hv1 & ->)]];
    cbn [new_CompressionCodecZSTD_1 new_CompressionCodecZSTD_2 level
         enable_long_range window_log].
  - unfold ZSTD_DEFAULT_LEVEL in *. split; [lia | reflexivity].
  - pose proof (to_int_range v). split; [lia | reflexivity].
  - pose proof (to_int_range v0). split; [lia|]. split; assumption.
Qed.

(** X7.  ZSTD has no lower check on the level: when the engine's maximum
    is not negative, a level argument that narrows to a negative [int] is
    accepted, the codec gets that negative level, and its description
    records the level sign-extended to 64 bits.  QATZSTD rejects the same
    argument with [ILLEGAL_CODEC_PARAMETER]. *)
Theorem ZSTD_accepts_negative_level (v : Z) :
  0 <= ZSTD_maxCLevel ->
  to_int v < 0 ->
  registerCodecZSTD_creator (Some [lit v])
  = inr (new_CompressionCodecZSTD_1 (to_int v))
  /\ desc_args (codec_desc (new_CompressionCodecZSTD_1 (to_int v)))
     = [2 ^ 64 + to_int v]
  /\ error_code (registerCodecQATZSTD_creator (Some [lit v]))
     = Some ILLEGAL_CODEC_PARAMETER.
Proof.
  intros Hmax Hneg. pose proof (to_int_range v) as Hrange.
  rewrite ZSTD_creator_level, QATZSTD_creator_level.
  destruct (to_int v >? ZSTD_maxCLevel) eqn:Hgt; [lia|].
  split; [reflexivity|]. split.
  - cbn [new_CompressionCodecZSTD_1 codec_desc desc_args].
    rewrite to_UInt64_negative by lia. reflexivity.
  - unfold QATZSTD_SUPPORTED_MIN_LEVEL.
    destruct (to_int v <? 1) eqn:Hlo; [|lia].
    rewrite orb_true_r. reflexivity.
Qed.

(** X8.  A creator throws [ILLEGAL_SYNTAX_FOR_CODEC_TYPE] exactly when the
    argument list is too long: more than two children for ZSTD, more than
    one for QATZSTD.  No other rejection carries that code, and a missing
    argument list never does. *)
Theorem syntax_error_iff_too_many_arguments (arguments : ASTPtr) :
  (error_code (registerCodecZSTD_creator arguments)
   = Some ILLEGAL_SYNTAX_FOR_CODEC_TYPE
   <-> exists children,
         arguments = Some children /\ (2 < List.length children)%nat)
  /\ (error_code (registerCodecQATZSTD_creator arguments)
      = Some ILLEGAL_SYNTAX_FOR_CODEC_TYPE
      <-> exists children,
            arguments = Some children /\ (1 < List.length children)%nat).
Proof.
  split.
  - destruct arguments as [[|a [|b [|c' rest]]]|].
    + split; [discriminate | intros (l & H & Hl); inversion H; subst;
                             cbn in Hl; lia].
    + split; [|intros (l & H & Hl); inversion H; subst; cbn in Hl; lia].
      destruct a as [[v|]|]; try discriminate.
      change (ASTLiteral (Field_UInt64 v)) with (lit v).
      rewrite ZSTD_creator_level.
      destruct (to_int v >? ZSTD_maxCLevel); discriminate.
    + split; [|intros (l & H & Hl); inversion H; subst; cbn in Hl; lia].
      destruct a as [[v0|]|]; try discriminate.
      unfold registerCodecZSTD_creator.
      cbn [List.length as_ASTLiteral safeGet_UInt64 bind].
      change (Z.of_nat 2 >? 2) with false. cbv iota.
      destruct (to_int v0 >? ZSTD_maxCLevel); [discriminate|].
      destruct b as [[v1|]|]; cbn [as_ASTLiteral safeGet_UInt64 bind];
        try discriminate.
      destruct (ZSTD_isError _); [discriminate|].
      destruct (negb _ && _); discriminate.
    + rewrite ZSTD_creator_too_many. split; [|reflexivity].
      intros _. eexists. split; [reflexivity|]. cbn. lia.
    + split; [discriminate | intros (l & H & _); discriminate H].
  - destruct arguments as [[|a [|b rest]]|].
    + split; [discriminate | intros (l & H & Hl); inversion H; subst;
                             cbn in Hl; lia].
    + split; [|intros (l & H & Hl); inversion H; subst; cbn in Hl; lia].
      destruct a as [[v|]|]; try discriminate.
      change (ASTLiteral (Field_UInt64 v)) with (lit v).
      rewrite QATZSTD_creator_level.
      destruct (_ || _); discriminate.
    + rewrite QATZSTD_creator_too_many. split; [|reflexivity].
      intros _. eexists. split; [reflexivity|]. cbn. lia.
    + split; [discriminate | intros (l & H & _); discriminate H].
Qed.

(** X9.  The level check comes first: when the level argument is above
    the engine's maximum, ZSTD reports the level error whatever stands in
    the second position, be it a valid window log, one out of range, a
    literal of another type or no literal at all. *)
Theorem ZSTD_level_error_first (v : Z) (second : IAST) :
  to_int v > ZSTD_maxCLevel ->
  registerCodecZSTD_creator (Some [lit v; second])
  = throw ("ZSTD codec can't have level more than "
           ++ toString ZSTD_maxCLevel ++ ", given "
           ++ toString (to_int v))%string
          ILLEGAL_CODEC_PARAMETER.
Proof.
  intros Hv. rewrite (ZSTD_creator_level_first v second Hv).
  rewrite ZSTD_creator_level.
  destruct (to_int v >? ZSTD_maxCLevel) eqn:Hgt; [reflexivity | lia].
Qed.

End Construction.

(** ** Compression *)

Section Compression.

Context {E : Env}.

(** X1.  The only failure of a compress call, on either codec and in any
    state, is [CANNOT_COMPRESS] with the engine's error name in the message,
    raised exactly on an engine error code; otherwise the call returns a
    [UInt32].  Likewise the only failure of a decompress call is
    [CANNOT_DECOMPRESS] with the engine's error name. *)
Theorem failures_carry_the_engine_error
  (c : Codec) (p : Process) (source : bytes) (uncompressed_size : Z) :
  ((exists n,
      returned (snd (Codec_compress c p source)) = inr n /\ 0 <= n < 2 ^ 32)
   \/ (exists r,
         ZSTD_isError r = true
         /\ returned (snd (Codec_compress c p source))
            = throw ("Cannot compress block with ZSTD: "
                     ++ ZSTD_getErrorName r)%string CANNOT_COMPRESS))
  /\ ((exists written,
         doDecompressData (as_ZSTD c) source uncompressed_size = inr written)
      \/ (exists r,
            ZSTD_isError r = true
            /\ doDecompressData (as_ZSTD c) source uncompressed_size
               = throw ("Cannot ZSTD_decompress: "
                        ++ ZSTD_getErrorName r)%string CANNOT_DECOMPRESS)).
Proof.
  split.
  - destruct (Codec_compress_shape c p source) as (w & cctx' & ->).
    unfold compress_result. cbn [returned].
    destruct (ZSTD_isError (fst (ZSTD_compress2 _ _ _ _))) eqn:Herr.
    + right. eexists. split; [exact Herr | reflexivity].
    + left. eexists. split; [reflexivity | apply to_UInt32_range].
  - unfold doDecompressData.
    destruct (ZSTD_decompress uncompressed_size source) as [res written].
    destruct (ZSTD_isError res) eqn:Herr.
    + right. exists res. split; [exact Herr | reflexivity].
    + left. now exists written.
Qed.

(** X5.  A QATZSTD codec keeps its configuration for life: in every state
    reached from the creator by compress calls the level lies in 1..12, the
    base part holds the same level with long-range matching off, and once
    the instance is initialised its cached context is the session context
    built from its own sequence-producer state and level. *)
Theorem QATZSTD_session_invariant (c : Codec) :
  Reachable c ->
  forall q, c = Codec_QATZSTD q ->
    QATZSTD_SUPPORTED_MIN_LEVEL <= qat_level q <= QATZSTD_SUPPORTED_MAX_LEVEL
    /\ level (base q) = qat_level q
    /\ enable_long_range (base q) = false
    /\ (initialized q = true ->
        cctx q = session_cctx (sequenceProducerState q) (qat_level q)).
Proof.
  induction 1 as [r arguments c Hr Hc | c p source _ IH]; intros q Hq.
  - destruct Hr as [<-|[<-|[]]];
      cbn [creator registerCodecZSTD registerCodecQATZSTD] in Hc.
    + destruct (registerCodecZSTD_creator arguments); cbn [bind] in Hc;
        [discriminate | inversion Hc; subst; discriminate].
    + destruct (registerCodecQATZSTD_creator arguments) as [e|q'] eqn:Hq';
        cbn [bind] in Hc; [discriminate|].
      inversion Hc; subst. inversion H0; subst.
      destruct (QATZSTD_creator_new _ _ Hq') as (l & -> & Hl).
      cbn [new_CompressionCodecQATZSTD qat_level base setCodecDescription
           level enable_long_range new_CompressionCodecZSTD_1 initialized].
      repeat split; try apply Hl. discriminate.
  - destruct c as [z|q0]; cbn [Codec_compress fst] in Hq; [discriminate|].
    specialize (IH q0 eq_refl). destruct IH as (Hl & Hb & Hlr & Hctx).
    destruct (initialized q0) eqn:Hi.
    + rewrite (QATZSTD_later_call q0 p source Hi) in Hq. cbn [fst] in Hq.
      inversion Hq; subst. rewrite Hi. repeat split; tauto.
    + rewrite (QATZSTD_first_call q0 p source Hi) in Hq.
      cbv zeta in Hq. cbn [fst] in Hq. inversion Hq; subst.
      cbn [qat_level base initialized cctx sequenceProducerState].
      repeat split; tauto.
Qed.

(** X6.  What the engine sees of the arguments: a ZSTD codec accepted for
    one argument compresses on a context that only sets the narrowed
    level; a codec accepted for two arguments compresses on a context that
    sets the narrowed level, switches long-distance matching on and sets
    the narrowed window log, also when that window log is 0. *)
Theorem ZSTD_arguments_reach_engine
  (v0 v1 : Z) (w : World) (source : bytes) :
  to_int v0 <= ZSTD_maxCLevel ->
  ZSTD_isError (error (ZSTD_cParam_getBounds ZSTD_c_windowLog)) = false ->
  to_int v1 = 0
  \/ lowerBound (ZSTD_cParam_getBounds ZSTD_c_windowLog)
     <= to_int v1
     <= upperBound (ZSTD_cParam_getBounds ZSTD_c_windowLog) ->
  (exists c,
     registerCodecZSTD_creator (Some [lit v0]) = inr c
     /\ doCompressData c w source
        = compress_result w
            [SetParameter ZSTD_c_compressionLevel (to_int v0)] source)
  /\ (exists c,
        registerCodecZSTD_creator (Some [lit v0; lit v1]) = inr c
        /\ doCompressData c w source
           = compress_result w
               [SetParameter ZSTD_c_compressionLevel (to_int v0);
                SetParameter ZSTD_c_enableLongDistanceMatching 1;
                SetParameter ZSTD_c_windowLog (to_int v1)] source).
Proof.
  intros Hlevel Herr Hwindow. split.
  - exists (new_CompressionCodecZSTD_1 (to_int v0)). split.
    + rewrite ZSTD_creator_level.
      destruct (to_int v0 >? ZSTD_maxCLevel) eqn:Hgt; [lia | reflexivity].
    + apply doCompressData_result.
  - exists (new_CompressionCodecZSTD_2 (to_int v0) (to_int v1)). split.
    + rewrite (ZSTD_creator_window v0 v1 Hlevel). cbv zeta. rewrite Herr.
      destruct (to_int v1 =? 0) eqn:Hz;
        destruct (to_int v1 >? upperBound _) eqn:Hhi;
        destruct (to_int v1 <? lowerBound _) eqn:Hlo;
        cbn [negb andb orb]; try reflexivity; lia.
    + apply doCompressData_result.
Qed.

End Compression.

Section CompressionContract.

Context {E : Env} {EO : EnvOk E}.

(** X10.  On every codec the creators hand out, in any state, and for a
    block whose size and engine bound are [UInt32] values, the value a
    compress call returns is the number of bytes it wrote to the
    destination, so the caller keeps all of them. *)
Theorem returned_size_is_bytes_written
  (c : Codec) (p : Process) (source : bytes) :
  Reachable c ->
  size source < 2 ^ 32 ->
  ZSTD_compressBound (size source) < 2 ^ 32 ->
  returned (snd (Codec_compress c p source))
  = inr (size (dest (snd (Codec_compress c p source))))
  /\ take (size (dest (snd (Codec_compress c p source))))
          (dest (snd (Codec_compress c p source)))
     = dest (snd (Codec_compress c p source)).
Proof.
  intros Hc Hsrc Hfit. split; [|apply take_size].
  destruct (Codec_compress_result c p source (Reachable_session_ok c Hc))
    as (w & cctx' & -> & Hsw & _).
  now apply compress_result_returns.
Qed.

(** X11.  [getMaxCompressedDataSize] is the engine bound exactly when that
    bound fits 32 bits; when it does not, the value returned is smaller
    than the capacity the compress call hands to the engine. *)
Theorem getMaxCompressedDataSize_exact_iff
  (c : CompressionCodecZSTD) (n : Z) :
  0 <= n ->
  (getMaxCompressedDataSize c n = ZSTD_compressBound n
   <-> ZSTD_compressBound n < 2 ^ 32)
  /\ (2 ^ 32 <= ZSTD_compressBound n ->
      getMaxCompressedDataSize c n < ZSTD_compressBound n).
Proof.
  intros Hn. pose proof (compressBound_nonneg n Hn) as Hb.
  pose proof (to_UInt32_range (ZSTD_compressBound n)) as Hr.
  unfold getMaxCompressedDataSize in *. split; [split|].
  - intros H. rewrite <- H. apply Hr.
  - intros H. apply to_UInt32_small. lia.
  - lia.
Qed.

End CompressionContract.

(** X2, at the level argument 4294967295: the codec has level -1, its
    description records 18446744073709551615, and that argument gives the
    codec back. *)
Lemma ZSTD_description_roundtrip_witness :
  registerCodecZSTD_creator (E := LibZstd.env) (Some [lit 4294967295])
  = inr (new_CompressionCodecZSTD_1 (-1))
  /\ registerCodecZSTD_creator (E := LibZstd.env)
       (Some [lit 18446744073709551615])
     = inr (new_CompressionCodecZSTD_1 (-1)).
Proof.
  split; [reflexivity|].
  apply (ZSTD_description_roundtrip (E := LibZstd.env)
           (Some [lit 4294967295]) (new_CompressionCodecZSTD_1 (-1))).
  - vm_compute. discriminate.
  - reflexivity.
Defined.

(** X3, at QATZSTD(7). *)
Lemma QATZSTD_description_roundtrip_witness :
  registerCodecQATZSTD_creator
    (Some (map lit (desc_args (codec_desc
                                 (base (new_CompressionCodecQATZSTD 7))))))
  = inr (new_CompressionCodecQATZSTD 7).
Proof.
  exact (proj1 (QATZSTD_description_roundtrip (E := LibZstd.env)
                  (Some [lit 7]) (new_CompressionCodecQATZSTD 7) eq_refl)).
Defined.

(** X4, at ZSTD(3, 20) with libzstd's bounds. *)
Lemma ZSTD_parameters_within_bounds_witness :
  - 2 ^ 31 <= level (new_CompressionCodecZSTD_2 3 20)
  <= ZSTD_maxCLevel (Env := LibZstd.env).
Proof.
  apply (ZSTD_parameters_within_bounds (E := LibZstd.env)
           (Some [lit 3; lit 20]) (new_CompressionCodecZSTD_2 3 20)).
  - vm_compute. discriminate.
  - reflexivity.
Defined.

(** X5, at a QATZSTD codec of level 3 after one compress call on a host
    without a QAT device. *)
Lemma QATZSTD_session_invariant_witness :
  let q :=
    fst (fst (QATZSTD_doCompressData (E := LibZstd.env)
                (new_CompressionCodecQATZSTD 3) (LibZstd.host false) [x00])) in
  qat_level q = 3
  /\ initialized q = true
  /\ cctx q = session_cctx (sequenceProducerState q) (qat_level q).
Proof.
  intros q.
  pose proof (QATZSTD_session_invariant (E := LibZstd.env)
                (fst (fst (Codec_compress
                             (Codec_QATZSTD (new_CompressionCodecQATZSTD 3))
                             (LibZstd.host false) [x00])))) as H.
  destruct (H (Reachable_compressed _ (LibZstd.host false) [x00]
                (Reachable_created registerCodecQATZSTD (Some [lit 3])
                   (Codec_QATZSTD (new_CompressionCodecQATZSTD 3))
                   (or_intror (or_introl eq_refl)) eq_refl))
              q eq_refl)
    as (_ & _ & _ & Hctx).
  split; [reflexivity|]. split; [reflexivity|]. exact (Hctx eq_refl).
Defined.

(** X6, at ZSTD(3) and ZSTD(3, 0). *)
Lemma ZSTD_arguments_reach_engine_witness :
  doCompressData (E := LibZstd.env) (new_CompressionCodecZSTD_2 3 0)
    true [x00]
  = compress_result (E := LibZstd.env) true
      [SetParameter ZSTD_c_compressionLevel 3;
       SetParameter ZSTD_c_enableLongDistanceMatching 1;
       SetParameter ZSTD_c_windowLog 0] [x00].
Proof.
  destruct (ZSTD_arguments_reach_engine (E := LibZstd.env) 3 0 true [x00])
    as (_ & c & Hc & Hrun).
  - vm_compute. discriminate.
  - reflexivity.
  - left. reflexivity.
  - inversion Hc. subst c. exact Hrun.
Defined.

(** X7, at the level argument 4294967295, which narrows to -1. *)
Lemma ZSTD_accepts_negative_level_witness :
  registerCodecZSTD_creator (E := LibZstd.env) (Some [lit 4294967295])
  = inr (new_CompressionCodecZSTD_1 (-1))
  /\ desc_args (codec_desc (new_CompressionCodecZSTD_1 (-1)))
     = [18446744073709551615]
  /\ error_code (registerCodecQATZSTD_creator (Some [lit 4294967295]))
     = Some ILLEGAL_CODEC_PARAMETER.
Proof.
  apply (ZSTD_accepts_negative_level (E := LibZstd.env) 4294967295).
  - vm_compute. discriminate.
  - reflexivity.
Defined.

(** X9, at level 23 with the window log 99 and with a node that is no
    literal. *)
Lemma ZSTD_level_error_first_witness :
  registerCodecZSTD_creator (E := LibZstd.env) (Some [lit 23; lit 99])
  = throw "ZSTD codec can't have level more than 22, given 23"
          ILLEGAL_CODEC_PARAMETER
  /\ registerCodecZSTD_creator (E := LibZstd.env) (Some [lit 23; ASTOther])
     = throw "ZSTD codec can't have level more than 22, given 23"
             ILLEGAL_CODEC_PARAMETER.
Proof.
  split.
  - apply (ZSTD_level_error_first (E := LibZstd.env) 23 (lit 99)).
    reflexivity.
  - apply (ZSTD_level_error_first (E := LibZstd.env) 23 ASTOther).
    reflexivity.
Defined.

(** X10, at ZSTD(19) on a three-byte block: seven bytes are written and 7
    is returned. *)
Lemma returned_size_is_bytes_written_witness :
  returned (snd (Codec_compress (E := LibZstd.env)
                   (Codec_ZSTD (new_CompressionCodecZSTD_1 19))
                   (LibZstd.host true) [x00; x01; x02]))
  = inr 7.
Proof.
  destruct (returned_size_is_bytes_written (EO := LibZstdFacts.env_ok)
              (Codec_ZSTD (new_CompressionCodecZSTD_1 19))
              (LibZstd.host true) [x00; x01; x02])
    as (H & _).
  - apply (Reachable_created (registerCodecZSTD (E := LibZstd.env))
             (Some [lit 19])).
    + left. reflexivity.
    + reflexivity.
  - reflexivity.
  - reflexivity.
  - exact H.
Defined.

(** X11, at 1000 bytes and at the largest [UInt32] with libzstd's bound. *)
Lemma getMaxCompressedDataSize_exact_iff_witness :
  getMaxCompressedDataSize (E := LibZstd.env)
    (new_CompressionCodecZSTD_1 1) 1000
  = ZSTD_compressBound (Env := LibZstd.env) 1000
  /\ getMaxCompressedDataSize (E := LibZstd.env)
       (new_CompressionCodecZSTD_1 1) 4294967295
     < ZSTD_compressBound (Env := LibZstd.env) 4294967295.
Proof.
  split.
  - apply (proj1 (getMaxCompressedDataSize_exact_iff
                    (EO := LibZstdFacts.env_ok)
                    (new_CompressionCodecZSTD_1 1) 1000 ltac:(lia))).
    reflexivity.
  - apply (proj2 (getMaxCompressedDataSize_exact_iff
                    (EO := LibZstdFacts.env_ok)
                    (new_CompressionCodecZSTD_1 1) 4294967295 ltac:(lia))).
    vm_compute. discriminate.
Defined.
